(** * scripts/check.py: the target-matrix check runner

    A shallow embedding of [scripts/check.py] and the properties of it
    that the specification states.

    Modelling conventions.
    - A Python [bytes] object is a [string] (a list of 8-bit characters).
    - A Python [str] is the [string] holding its UTF-8 encoding, so
      [bytes.decode("utf-8")] is the identity on well-formed input and
      raises otherwise; equality of two [str] is equality of encodings,
      and looking for an ASCII text inside a [str] is looking for its
      bytes.
    - A [dict] whose iteration order is observable ([OSS]) is an
      association list in insertion order; [Dict[str, Set[str]]] is a
      [gmap string (gset string)].
    - The outside world (rustup, cargo) is an oracle that answers every
      [subprocess.run] from the history of events so far, so that what
      a command does may depend on the commands run before it.
    - [main] is a computation in a state-and-abort monad whose state is
      the event trace (what was printed, which processes were run);
      [sys.exit] and uncaught exceptions abort it.  Writing to the
      terminal is taken to succeed.
    - [sys.platform] and [sys.argv] are parameters of [main]. *)

From Stdlib Require Import ZArith Ascii String.
From stdpp Require Import base decidable option list strings gmap.

Set Warnings "-clear-no-such-hyp".

Open Scope Z_scope.
Open Scope string_scope.
Open Scope list_scope.
Open Scope stdpp_scope.

(** ** Text primitives of the Python runtime *)

Module Py.

Definition chr (n : nat) : string := String (ascii_of_nat n) EmptyString.

Definition code (c : ascii) : N := N_of_ascii c.

(** [bytes.split()] with no argument separates on ASCII whitespace. *)
Definition bytes_isspace (c : ascii) : bool :=
  let n := code c in
  ((9 <=? n) && (n <=? 13) || (n =? 32))%N.

(** [str.split()] with no argument separates on what [str.isspace]
    accepts; within ASCII that is the bytes set plus 0x1c..0x1f.  The
    script splits only the commands it builds from the catalog, which
    are ASCII. *)
Definition str_isspace (c : ascii) : bool :=
  let n := code c in
  ((9 <=? n) && (n <=? 13) || (28 <=? n) && (n <=? 31) || (n =? 32))%N.

Definition flush (cur : string) : list string :=
  match cur with EmptyString => [] | _ => [cur] end.

(** Fields of [s], [cur] being the field under construction. *)
Fixpoint fields (sp : ascii → bool) (s cur : string) : list string :=
  match s with
  | EmptyString => flush cur
  | String c s' =>
      if sp c then flush cur ++ fields sp s' EmptyString
      else fields sp s' (cur +:+ String c EmptyString)
  end.

Definition bytes_split (b : string) : list string :=
  fields bytes_isspace b EmptyString.

Definition str_split (s : string) : list string :=
  fields str_isspace s EmptyString.

(** [bytes.splitlines()]: a line ends at "\n", "\r" or "\r\n"; the
    terminators are dropped and no empty last line is produced. *)
Fixpoint lines (b cur : string) : list string :=
  match b with
  | EmptyString => flush cur
  | String c b' =>
      if (code c =? 10)%N then cur :: lines b' EmptyString
      else if (code c =? 13)%N then
        cur :: match b' with
               | String c' b'' =>
                   if (code c' =? 10)%N then lines b'' EmptyString
                   else lines b' EmptyString
               | EmptyString => lines b' EmptyString
               end
      else lines b' (cur +:+ String c EmptyString)
  end.

Definition splitlines (b : string) : list string := lines b EmptyString.

(** Well-formed UTF-8 (the table of the Unicode standard, which is
    what the strict decoder accepts). *)
Definition between (lo hi n : N) : bool := ((lo <=? n) && (n <=? hi))%N.

Definition cont (c : ascii) : bool := between 128 191 (code c).

Fixpoint utf8_valid (b : string) : bool :=
  match b with
  | EmptyString => true
  | String c0 r0 =>
      let n0 := code c0 in
      if (n0 <=? 127)%N then utf8_valid r0
      else
        match r0 with
        | EmptyString => false
        | String c1 r1 =>
            let n1 := code c1 in
            if between 194 223 n0 then cont c1 && utf8_valid r1
            else
              match r1 with
              | EmptyString => false
              | String c2 r2 =>
                  if between 224 239 n0 then
                    (if (n0 =? 224)%N then between 160 191 n1
                     else if (n0 =? 237)%N then between 128 159 n1
                     else cont c1)
                    && cont c2 && utf8_valid r2
                  else
                    match r2 with
                    | EmptyString => false
                    | String c3 r3 =>
                        between 240 244 n0
                        && (if (n0 =? 240)%N then between 144 191 n1
                            else if (n0 =? 244)%N then between 128 143 n1
                            else cont c1)
                        && cont c2 && cont c3 && utf8_valid r3
                    end
              end
        end
  end.

(** [needle in hay] for two [str]. *)
Fixpoint contains (needle hay : string) : bool :=
  String.prefix needle hay
  || match hay with
     | EmptyString => false
     | String _ hay' => contains needle hay'
     end.

(** [sep.join(parts)]. *)
Fixpoint join (sep : string) (parts : list string) : string :=
  match parts with
  | [] => EmptyString
  | [p] => p
  | p :: ps => p +:+ sep +:+ join sep ps
  end.

(** [repr] of a [str] made of printable ASCII with no quote and no
    backslash (every catalog key is one): the text in single quotes. *)
Definition repr_plain (s : string) : string := "'" +:+ s +:+ "'".

(** [str(l)] for a list [l] of such strings. *)
Definition str_of_list (l : list string) : string :=
  "[" +:+ join ", " (repr_plain <$> l) +:+ "]".

End Py.

(** ** Processes, events and the outside world *)

(** What [subprocess.run] hands back.  Without [capture_output] the two
    streams go to the terminal and the fields are unused. *)
Record CompletedProcess := Completed {
  returncode : Z;
  stdout : string;
  stderr : string
}.

Inductive event :=
| Print (text : string)          (* print(s) for a str s *)
| PrintBytes (b : string)        (* print(b) for a bytes b: its repr is written *)
| Run (argv : list string)       (* subprocess.run(argv) *)
| RunCaptured (argv : list string). (* subprocess.run(argv, capture_output=True) *)

Abbreviation trace := (list event).

(** The environment: given everything that happened so far and the
    argument vector, the process that ran; [None] when the program
    could not be started ([subprocess.run] raises [OSError]). *)
Definition World := trace → list string → option CompletedProcess.

Inductive exn := UnicodeDecodeError | KeyError | IndexError | OSError.

Inductive abort :=
| SysExit (status : Z)
| Raised (e : exn).

Inductive res (A : Type) :=
| Ok (a : A)
| Abort (why : abort).
Arguments Ok {A} a.
Arguments Abort {A} why.

(** The interpreter turns an uncaught exception into status 1. *)
Definition exit_status (r : res unit) : Z :=
  match r with
  | Ok _ => 0
  | Abort (SysExit n) => n
  | Abort (Raised _) => 1
  end.

(** ** The monad of the script: a trace that grows, and early exit *)

Definition M (A : Type) : Type := trace → trace * res A.

#[global] Instance M_ret : MRet M := λ A a tr, (tr, Ok a).

#[global] Instance M_bind : MBind M := λ A B f m tr,
  match m tr with
  | (tr', Ok a) => f a tr'
  | (tr', Abort why) => (tr', Abort why)
  end.

Definition emit (e : event) : M unit := λ tr, (tr ++ [e], Ok ()).

Definition stop {A} (why : abort) : M A := λ tr, (tr, Abort why).

Definition sys_exit {A} (status : Z) : M A := stop (SysExit status).

Definition raise {A} (e : exn) : M A := stop (Raised e).

Definition print (s : string) : M unit := emit (Print s).

Definition print_bytes (b : string) : M unit := emit (PrintBytes b).

(** [for x in xs: body(x)] *)
Fixpoint for_each {A} (xs : list A) (body : A → M unit) : M unit :=
  match xs with
  | [] => mret ()
  | x :: xs' => body x ≫= λ _, for_each xs' body
  end.

(** A loop whose body updates a local object [s]. *)
Fixpoint for_fold {A S} (xs : list A) (body : A → S → M S) (s : S) : M S :=
  match xs with
  | [] => mret s
  | x :: xs' => body x s ≫= for_fold xs' body
  end.

Definition subprocess_run (w : World) (capture : bool) (argv : list string)
  : M CompletedProcess := λ tr,
  let tr' := tr ++ [if capture then RunCaptured argv else Run argv] in
  match w tr argv with
  | Some c => (tr', Ok c)
  | None => (tr', Abort (Raised OSError))
  end.

Definition decode_utf8 (b : string) : M string :=
  if Py.utf8_valid b then mret b else raise UnicodeDecodeError.

(** [d[k]] on a dict. *)
Definition getitem {V} (d : gmap string V) (k : string) : M V :=
  match d !! k with
  | Some v => mret v
  | None => raise KeyError
  end.

(** ** The catalog [OSS]: { os: (channel, [triple...]) } *)

Definition entry : Type := string * list string.
Definition catalog : Type := list (string * entry).

Definition OSS_static : catalog := [
  ("android", ("stable",
     ["aarch64-linux-android"; "armv7-linux-androideabi"; "i686-linux-android"]));
  ("freebsd", ("stable", ["x86_64-unknown-freebsd"]));
  ("linux", ("stable", ["x86_64-unknown-linux-gnu"; "x86_64-unknown-linux-musl"]));
  ("macos", ("stable", ["x86_64-apple-darwin"]));
  ("redox", ("nightly", ["x86_64-unknown-redox"]));
  ("netbsd", ("stable", ["x86_64-unknown-netbsd"]));
  ("windows", ("stable", ["x86_64-pc-windows-gnu"; "x86_64-pc-windows-msvc"]))
].

(** [d[k] = v] on an insertion-ordered dict: an existing key keeps its
    place, a new key goes last. *)
Fixpoint dict_set {V} (d : list (string * V)) (k : string) (v : V) : list (string * V) :=
  match d with
  | [] => [(k, v)]
  | (k', v') :: d' =>
      if decide (k' = k) then (k, v) :: d' else (k', v') :: dict_set d' k v
  end.

(** [d.get(k)] *)
Fixpoint dict_get {V} (d : list (string * V)) (k : string) : option V :=
  match d with
  | [] => None
  | (k', v) :: d' => if decide (k' = k) then Some v else dict_get d' k
  end.

Definition dict_keys {V} (d : list (string * V)) : list string := fst <$> d.

Definition dict_values {V} (d : list (string * V)) : list V := snd <$> d.

Definition ios_entry : entry := ("stable", ["aarch64-apple-ios"; "x86_64-apple-ios"]).

(** The module-level code: the table, then the assignment guarded by
    [sys.platform == "darwin"]. *)
Definition OSS (sys_platform : string) : catalog :=
  if decide (sys_platform = "darwin") then dict_set OSS_static "ios" ios_entry
  else OSS_static.

(** ** The functions of the script *)

Definition blue (s : string) : string :=
  Py.chr 27 +:+ "[94m" +:+ s +:+ Py.chr 27 +:+ "[0m".

(** [get_installed_targets], lines 29-43.  [scan_line] is the body of
    the loop over the lines of one listing, [scan_channel] the body of
    the loop over the channels, [installed] being the dict they fill. *)
Definition scan_line (channel : string) (line : string) (installed : gmap string (gset string))
  : M (gmap string (gset string)) :=
  match Py.bytes_split line with
  | [f0; f1] =>
      marker ← decode_utf8 f1;
      if decide (marker = "(installed)") then
        triple ← decode_utf8 f0;
        s ← getitem installed channel;
        mret (<[channel := s ∪ {[triple]}]> installed)
      else mret installed
  | _ => mret installed
  end.

Definition list_command (channel : string) : string :=
  "rustup +" +:+ channel +:+ " target list".

Definition scan_channel (w : World) (channel : string) (installed : gmap string (gset string))
  : M (gmap string (gset string)) :=
  let installed := <[channel := ∅]> installed in
  let command := list_command channel in
  completed ← subprocess_run w true (Py.str_split command);
  if decide (returncode completed ≠ 0) then
    print_bytes (stderr completed) ≫= λ _, sys_exit 1
  else
    for_fold (Py.splitlines (stdout completed)) (scan_line channel) installed.

Definition get_installed_targets (w : World) : M (gmap string (gset string)) :=
  for_fold ["stable"; "nightly"] (scan_channel w) ∅.

(** [run_command], lines 46-50. *)
Definition run_command (w : World) (command : string) : M unit :=
  print (blue command) ≫= λ _,
  completed ← subprocess_run w false (Py.str_split command);
  if decide (returncode completed ≠ 0) then sys_exit 1 else mret ().

Definition check_command (channel triple : string) : string :=
  "cargo +" +:+ channel +:+ " check --target=" +:+ triple.

Definition install_command (channel triple : string) : string :=
  "rustup +" +:+ channel +:+ " target install " +:+ triple.

Definition no_default_command (triple : string) : string :=
  "cargo check --target=" +:+ triple +:+ " --no-default-features".

Definition run_cargo_check (w : World) (channel triple : string) : M unit :=
  run_command w (check_command channel triple).

Definition run_rustup_target_install (w : World) (channel triple : string) : M unit :=
  run_command w (install_command channel triple).

(** The loop [for t in ts] that [main] has in both of its branches
    (lines 67-70 and 84-87): install if missing from the snapshot, then
    check. *)
Definition check_triples (w : World) (installed : gmap string (gset string))
  (channel : string) (ts : list string) : M unit :=
  for_each ts (λ t,
    s ← getitem installed channel;
    (if decide (t ∉ s) then run_rustup_target_install w channel t else mret ()) ≫= λ _,
    run_cargo_check w channel t).

(** "check linux without libc" (lines 72-75 and 90-93). *)
Definition check_linux_no_default (w : World) (oss : catalog) : M unit :=
  match dict_get oss "linux" with
  | None => raise KeyError
  | Some (_, linux_triples) =>
      for_each linux_triples (λ triple, run_command w (no_default_command triple))
  end.

(** The message of line 81. *)
Definition unrecognized (oss : catalog) (os : string) : string :=
  "Unrecognized OS '" +:+ os +:+ "'. Must be one of: "
  +:+ Py.str_of_list (dict_keys oss) +:+ ".".

(** [main], lines 63-93. *)
Definition main (w : World) (sys_platform : string) (argv : list string) : M unit :=
  let oss := OSS sys_platform in
  installed ← get_installed_targets w;
  if decide (length argv = 1%nat) then
    for_each (dict_values oss) (λ '(channel, ts),
      check_triples w installed channel ts) ≫= λ _,
    check_linux_no_default w oss
  else
    for_each (drop 1 argv) (λ os,
      match dict_get oss os with
      | None => print (unrecognized oss os) ≫= λ _, sys_exit 1
      | Some (channel, ts) => check_triples w installed channel ts
      end) ≫= λ _,
    match argv !! 1%nat with
    | None => raise IndexError
    | Some first =>
        if Py.contains "linux" first then check_linux_no_default w oss
        else mret ()
    end.

(** Running the script from the empty trace. *)
Definition run (w : World) (sys_platform : string) (argv : list string) : trace * res unit :=
  main w sys_platform argv [].

(** ** Vocabulary of the properties *)

(** The text of a command, and its fields, stay folded under [simpl]. *)
Arguments Py.str_split : simpl never.
Arguments Py.bytes_split : simpl never.
Arguments install_command : simpl never.
Arguments check_command : simpl never.
Arguments no_default_command : simpl never.
Arguments list_command : simpl never.
Arguments blue : simpl never.

(** The line is a triple followed by the marker, and nothing else. *)
Definition marks_installed (line triple : string) : Prop :=
  Py.bytes_split line = [triple; "(installed)"].

(** The process started by event [e] after history [h] exited with 0
    (events that start no process are vacuously fine). *)
Definition ev_ok (w : World) (h : trace) (e : event) : Prop :=
  match e with
  | Run argv | RunCaptured argv => returncode <$> w h argv = Some 0
  | Print _ | PrintBytes _ => True
  end.

(** Every external command issued along the trace succeeded. *)
Definition runs_ok (w : World) (tr : trace) : Prop :=
  ∀ h e rest, tr = h ++ e :: rest → ev_ok w h e.

(** The events of the listing phase: nothing is installed or checked. *)
Definition query_event (e : event) : Prop :=
  match e with
  | RunCaptured _ | PrintBytes _ => True
  | Run _ | Print _ => False
  end.

(** What running one command leaves in the trace: the echo, then the
    process. *)
Definition render (command : string) : list event :=
  [Print (blue command); Run (Py.str_split command)].

(** The run stopped at an install or check command that did not succeed. *)
Definition stopped_by_failure (w : World) (tr : trace) (why : abort) : Prop :=
  ∃ pre argv, tr = pre ++ [Run argv] ∧ runs_ok w pre ∧
    ((∃ cp, w pre argv = Some cp ∧ returncode cp ≠ 0 ∧ why = SysExit 1)
     ∨ (w pre argv = None ∧ why = Raised OSError)).

(** [installed[channel]], read as the empty set where the key is absent. *)
Definition installed_for (snapshot : gmap string (gset string)) (channel : string)
  : gset string := default ∅ (snapshot !! channel).

(** The commands one triple asks for, decided on the snapshot. *)
Definition triple_commands (snapshot : gmap string (gset string))
  (channel triple : string) : list string :=
  (if decide (triple ∉ installed_for snapshot channel)
   then [install_command channel triple] else [])
  ++ [check_command channel triple].

Definition entry_commands (snapshot : gmap string (gset string)) (e : entry)
  : list string := e.2 ≫= triple_commands snapshot e.1.

Definition linux_triples (oss : catalog) : list string :=
  match dict_get oss "linux" with
  | Some (_, ts) => ts
  | None => []
  end.

Definition no_default_commands (oss : catalog) : list string :=
  no_default_command <$> linux_triples oss.

(** The catalog entries of the arguments before the first unknown name,
    and that name if there is one. *)
Fixpoint selection (oss : catalog) (args : list string) : list entry * option string :=
  match args with
  | [] => ([], None)
  | os :: rest =>
      match dict_get oss os with
      | None => ([], Some os)
      | Some e => let '(es, bad) := selection oss rest in (e :: es, bad)
      end
  end.

Inductive ending :=
| Finished
| UnknownOS (os : string)
| NoFirstArgument.

(** The commands [main] is going to issue, in order, if none fails, and
    how it ends after them.  This is a second description of [main],
    used to reason about it: [main_eq] proves that [main] is the
    listing phase followed by these commands and this ending. *)
Definition script (snapshot : gmap string (gset string)) (oss : catalog)
  (argv : list string) : list string * ending :=
  if decide (length argv = 1%nat) then
    ((dict_values oss ≫= entry_commands snapshot) ++ no_default_commands oss,
     Finished)
  else
    let '(es, bad) := selection oss (drop 1 argv) in
    let cmds := es ≫= entry_commands snapshot in
    match bad with
    | Some os => (cmds, UnknownOS os)
    | None =>
        match argv !! 1%nat with
        | None => (cmds, NoFirstArgument)
        | Some first =>
            (cmds ++ (if Py.contains "linux" first
                      then no_default_commands oss else []),
             Finished)
        end
    end.

Definition finish (oss : catalog) (e : ending) : M unit :=
  match e with
  | Finished => mret ()
  | UnknownOS os => print (unrecognized oss os) ≫= λ _, sys_exit 1
  | NoFirstArgument => raise IndexError
  end.

(** Channels for which a listing was taken. *)
Definition listed_channel (e : entry) : Prop := e.1 = "stable" ∨ e.1 = "nightly".

(** How [run] can go: the listing fails; or a command of the script
    fails and the run stops there; or the whole script is issued, every
    command succeeding, and [main] ends as the script says. *)
Inductive run_shape (w : World) (oss : catalog) (argv : list string)
  : trace → res unit → Prop :=
| shape_query tr why :
    get_installed_targets w [] = (tr, Abort why) →
    run_shape w oss argv tr (Abort why)
| shape_stopped t0 snapshot done why :
    get_installed_targets w [] = (t0, Ok snapshot) →
    done `prefix_of` (script snapshot oss argv).1 →
    stopped_by_failure w (t0 ++ (done ≫= render)) why →
    run_shape w oss argv (t0 ++ (done ≫= render)) (Abort why)
| shape_through t0 snapshot tr r :
    get_installed_targets w [] = (t0, Ok snapshot) →
    runs_ok w (t0 ++ ((script snapshot oss argv).1 ≫= render)) →
    finish oss (script snapshot oss argv).2
      (t0 ++ ((script snapshot oss argv).1 ≫= render)) = (tr, r) →
    run_shape w oss argv tr r.

(** The entries [main] goes through: the whole catalog without
    arguments, else those of the names before the first unknown one. *)
Definition selected (oss : catalog) (argv : list string) : list entry :=
  if decide (length argv = 1%nat) then dict_values oss
  else (selection oss (drop 1 argv)).1.

(** The three commands, read back from an argument vector. *)
Inductive action :=
| AInstall (channel triple : string)
| ACheck (channel triple : string)
| ANoDefault (triple : string).

Definition command_of (a : action) : string :=
  match a with
  | AInstall channel triple => install_command channel triple
  | ACheck channel triple => check_command channel triple
  | ANoDefault triple => no_default_command triple
  end.

Fixpoint strip_prefix (p s : string) : option string :=
  match p, s with
  | EmptyString, _ => Some s
  | String a p', String b s' => if decide (a = b) then strip_prefix p' s' else None
  | String _ _, EmptyString => None
  end.
Arguments strip_prefix : simpl never.

Definition parse_argv (argv : list string) : option action :=
  match argv with
  | [prog; x; y; z] =>
      if decide (prog = "cargo") then
        if decide (x = "check") then
          if decide (z = "--no-default-features")
          then ANoDefault <$> strip_prefix "--target=" y
          else None
        else if decide (y = "check") then
          channel ← strip_prefix "+" x;
          triple ← strip_prefix "--target=" z;
          Some (ACheck channel triple)
        else None
      else None
  | [prog; x; y; z; triple] =>
      if decide (prog = "rustup" ∧ y = "target" ∧ z = "install")
      then (λ channel, AInstall channel triple) <$> strip_prefix "+" x
      else None
  | _ => None
  end.

(** The argument vector of [a]'s command reads back as [a]. *)
Definition reads_back (a : action) : Prop :=
  parse_argv (Py.str_split (command_of a)) = Some a.

Definition entry_reads_back (e : entry) : Prop :=
  Forall (λ t, reads_back (AInstall e.1 t) ∧ reads_back (ACheck e.1 t)) e.2.

(** ** Sample environments *)

Definition nl : string := Py.chr 10.

(** One line of a listing. *)
Definition listing_line (triple marker : string) : string :=
  triple +:+ marker +:+ nl.

(** A listing in which one of the two linux triples is installed. *)
Definition sample_listing : string :=
  listing_line "x86_64-apple-darwin" EmptyString
  +:+ listing_line "x86_64-unknown-linux-gnu" " (installed)"
  +:+ listing_line "x86_64-unknown-linux-musl" EmptyString
  +:+ listing_line "wasm32-unknown-unknown" " (installed, default)".

(** Every command exits with 0; both listings print [listing]. *)
Definition calm_world (listing : string) : World :=
  λ _ _, Some (Completed 0 listing EmptyString).

(** A listing that marks every triple of the catalog installed. *)
Definition full_listing (oss : catalog) : string :=
  String.concat EmptyString
    (e ← dict_values oss; t ← e.2; [listing_line t " (installed)"]).

(** As [calm_world], but every cargo invocation exits with 101. *)
Definition cargo_fails_world (listing : string) : World :=
  λ _ argv,
    Some (Completed (if decide (head argv = Some "cargo") then 101 else 0)
            listing EmptyString).

(** ** The claims that the code does not meet, as they are worded *)

(** C7 as worded: the status of the run is the exit code of the install
    or check command that failed. *)
Definition exit_code_propagated (w : World) (sys_platform : string)
  (argv : list string) : Prop :=
  ∀ tr r h a rest cp,
    run w sys_platform argv = (tr, r) →
    tr = h ++ Run a :: rest →
    w h a = Some cp →
    returncode cp ≠ 0 →
    exit_status r = returncode cp.

(** C1 as worded: an unknown name anywhere among the arguments gives a
    non-zero status, the message for that name, and no install or check
    process at all. *)
Definition rejected_before_any_work (w : World) (sys_platform : string)
  (argv : list string) : Prop :=
  ∀ os tr r,
    os ∈ drop 1 argv →
    dict_get (OSS sys_platform) os = None →
    run w sys_platform argv = (tr, r) →
    exit_status r ≠ 0
    ∧ Print (unrecognized (OSS sys_platform) os) ∈ tr
    ∧ ∀ a, Run a ∉ tr.

(** The trace once the two listings are taken, and the first check of
    the linux platform. *)
Definition listings_taken : trace :=
  [RunCaptured ["rustup"; "+stable"; "target"; "list"];
   RunCaptured ["rustup"; "+nightly"; "target"; "list"]].

Definition check_gnu : string :=
  "cargo +stable check --target=x86_64-unknown-linux-gnu".

Definition check_gnu_argv : list string :=
  ["cargo"; "+stable"; "check"; "--target=x86_64-unknown-linux-gnu"].

#[global] Instance event_eq_dec : EqDecision event.
Proof. solve_decision. Defined.

(** The linux platform selected, but not as the first name. *)
Definition macos_then_linux : list string := ["check.py"; "macos"; "linux"].

(** A check of a channel: the argument vector of some
    "cargo +channel check --target=triple". *)
Definition is_check_event (e : event) : bool :=
  match e with
  | Run argv =>
      match parse_argv argv with
      | Some (ACheck _ _) => true
      | _ => false
      end
  | _ => false
  end.

(** One check per triple of the catalog, in the order of the catalog. *)
Definition catalog_checks (oss : catalog) : list event :=
  e ← dict_values oss; t ← e.2; [Run (Py.str_split (check_command e.1 t))].

(** The check of a triple of an entry, and what comes right before it
    when the triple has just been installed: the install process and
    the echo of the check. *)
Definition check_event (e : entry) (t : string) : event :=
  Run (Py.str_split (check_command e.1 t)).

Definition install_then_echo (e : entry) (t : string) : list event :=
  [Run (Py.str_split (install_command e.1 t)); Print (blue (check_command e.1 t))].

(** Every occurrence of [e] in [l] comes right after [pat]. *)
Definition preceded_by (pat : list event) (e : event) (l : trace) : Prop :=
  ∀ h rest, l = h ++ e :: rest → ∃ h', h = h' ++ pat.

#[global] Instance action_eq_dec : EqDecision action.
Proof. solve_decision. Defined.

(** The linux platform named twice: its second triple, which
    [sample_listing] does not mark installed, is met twice. *)
Definition linux_twice : list string := ["check.py"; "linux"; "linux"].

Definition musl : string := "x86_64-unknown-linux-musl".

(** ** Vocabulary of the further properties *)

(** A line on which the scan of a listing raises: it has two fields, and
    the second does not decode, or the second is the marker and the
    first does not decode. *)
Definition undecodable (line : string) : bool :=
  match Py.bytes_split line with
  | [f0; f1] =>
      negb (Py.utf8_valid f1)
      || (bool_decide (f1 = "(installed)") && negb (Py.utf8_valid f0))
  | _ => false
  end.

(** The listing of [channel], asked after history [h], exits with 0 and
    prints lines that all scan. *)
Definition listing_scans (w : World) (h : trace) (channel : string) : Prop :=
  ∃ out err,
    w h (Py.str_split (list_command channel)) = Some (Completed 0 out err)
    ∧ existsb undecodable (Py.splitlines out) = false.

(** The event of a listing. *)
Definition listing_event (channel : string) : event :=
  RunCaptured (Py.str_split (list_command channel)).

(** rustup exits with 1 and complains on its error stream. *)
Definition rustup_fails_world : World :=
  λ _ argv,
    Some (Completed (if decide (head argv = Some "rustup") then 1 else 0)
            EmptyString "error: no such toolchain").

(** As [calm_world], but there is no cargo to start. *)
Definition no_cargo_world (listing : string) : World :=
  λ _ argv,
    if decide (head argv = Some "cargo") then None
    else Some (Completed 0 listing EmptyString).

(** Every character of [s] passes [p]. *)
Fixpoint all_chars (p : ascii → bool) (s : string) : bool :=
  match s with
  | EmptyString => true
  | String c s' => p c && all_chars p s'
  end.

Definition is_ascii (c : ascii) : bool := (Py.code c <=? 127)%N.

(** Text of 7-bit characters only. *)
Definition ascii_text (s : string) : bool := all_chars is_ascii s.

(** Text without a character that [sp] takes for white space. *)
Definition spaceless (sp : ascii → bool) (s : string) : bool :=
  all_chars (λ c, negb (sp c)) s.

(** What a triple taken from a listing looks like: one field of a line,
    that decoded. *)
Definition field_like (t : string) : Prop :=
  t ≠ EmptyString
  ∧ spaceless Py.bytes_isspace t = true
  ∧ Py.utf8_valid t = true.

(** Each of the two listings prints [out_s], resp. [out_n], and every
    command exits with 0. *)
Definition listing_world (out_s out_n : string) : World :=
  λ _ argv,
    Some (Completed 0
            (if decide (argv !! 1%nat = Some "+stable") then out_s else out_n)
            EmptyString).

(** Every triple of every set of the dict is field-like. *)
Definition members_ok (installed : gmap string (gset string)) : Prop :=
  ∀ c s t, installed !! c = Some s → t ∈ s → field_like t.

(** The trace holds the check of every triple of the entry. *)
Definition checked (tr : trace) (e : entry) : Prop :=
  ∀ t, t ∈ e.2 → Run (Py.str_split (check_command e.1 t)) ∈ tr.

(** The trace holds the install of every triple of the entry that the
    snapshot lacks. *)
Definition installed_if_missing (snapshot : gmap string (gset string))
  (tr : trace) (e : entry) : Prop :=
  ∀ t, t ∈ e.2 → t ∉ installed_for snapshot e.1 →
       Run (Py.str_split (install_command e.1 t)) ∈ tr.

(** The checks that the names [args] ask for, name after name. *)
Definition argument_checks (oss : catalog) (args : list string) : list event :=
  os ← args;
  match dict_get oss os with
  | Some e => t ← e.2; [Run (Py.str_split (check_command e.1 t))]
  | None => []
  end.

(** Every process of the trace comes right after the echo of its
    command. *)
Definition echoed (l : trace) : Prop :=
  ∀ h a rest, l = h ++ Run a :: rest →
    ∃ h' c, h = h' ++ [Print (blue c)] ∧ a = Py.str_split c.

(** Every echo of the trace is followed by the process of its command. *)
Definition echo_obeyed (l : trace) : Prop :=
  ∀ h c rest, l = h ++ Print (blue c) :: rest →
    ∃ rest', rest = Run (Py.str_split c) :: rest'.

(** ** More claims as they are worded, and the inputs that refute them *)

(** C2 as worded: with explicit arguments, the no-default-features pass
    for the linux triples is executed if and only if the first argument
    contains "linux". *)
Definition pass_iff_first_contains_linux (w : World) (sys_platform : string)
  (argv : list string) : Prop :=
  ∀ first tr r,
    argv !! 1%nat = Some first →
    run w sys_platform argv = (tr, r) →
    (Py.contains "linux" first = true
     ↔ ∀ t, t ∈ linux_triples (OSS sys_platform) →
            Run (Py.str_split (no_default_command t)) ∈ tr).

(** C4 as worded: a run without arguments in which every external
    command succeeds issues one check per catalog triple, in order. *)
Definition full_run_checks_each_triple (w : World) (sys_platform : string)
  (argv : list string) : Prop :=
  ∀ tr r,
    run w sys_platform argv = (tr, r) →
    runs_ok w tr →
    filter is_check_event tr = catalog_checks (OSS sys_platform).

(** C7 as worded, its first part: the status is 0 when every external
    command succeeds. *)
Definition zero_when_commands_succeed (w : World) (sys_platform : string)
  (argv : list string) : Prop :=
  ∀ tr r,
    run w sys_platform argv = (tr, r) →
    runs_ok w tr →
    exit_status r = 0.

(** A listing whose only line has two fields, the second one being a
    byte that is no UTF-8. *)
Definition undecodable_listing : string :=
  "x86_64-unknown-linux-gnu " +:+ Py.chr 255 +:+ nl.

(** The commands that the names [args] ask for, name after name, decided
    on the snapshot. *)
Definition argument_commands (snapshot : gmap string (gset string))
  (oss : catalog) (args : list string) : list string :=
  os ← args;
  match dict_get oss os with
  | Some e => entry_commands snapshot e
  | None => []
  end.

(** A name that contains "linux" and is no key of the catalog. *)
Definition linux_musl : list string := ["check.py"; "linux-musl"].

(** A catalog name, then an unknown one. *)
Definition linux_then_bogus : list string := ["check.py"; "linux"; "bogus-os"].

(* end of the vocabulary *)

(** * Properties *)

(** ** The monad *)

Lemma bind_unfold {A B} (m : M A) (f : A → M B) (tr : trace) :
  (m ≫= f) tr =
  match m tr with
  | (tr', Ok a) => f a tr'
  | (tr', Abort why) => (tr', Abort why)
  end.
Proof. reflexivity. Qed.

Lemma for_each_app {A} (xs ys : list A) (body : A → M unit) (tr : trace) :
  for_each (xs ++ ys) body tr = (for_each xs body ≫= λ _, for_each ys body) tr.
Proof.
  revert tr. induction xs as [|x xs IH]; intros tr; [done|].
  simpl. rewrite !bind_unfold. destruct (body x tr) as [tr1 [[]|why]]; [|done].
  rewrite IH. by rewrite bind_unfold.
Qed.

(** ** Reading the listing *)

Section listing.
Context (channel : string).

Lemma scan_line_inv line (installed : gmap string (gset string)) s tr tr' r :
  installed !! channel = Some s →
  scan_line channel line installed tr = (tr', r) →
  tr' = tr ∧
  match r with
  | Ok installed' =>
      ∃ s', installed' !! channel = Some s'
        ∧ (∀ t, t ∈ s' ↔ t ∈ s ∨ marks_installed line t)
        ∧ ∀ c, c ≠ channel → installed' !! c = installed !! c
  | Abort why => why = Raised UnicodeDecodeError
  end.
Proof.
  intros Hs. unfold scan_line, marks_installed.
  assert (Hsame : ∀ tr0, (tr0, Ok installed) = (tr', r) → tr' = tr0 ∧
    match r with
    | Ok installed' =>
        ∃ s', installed' !! channel = Some s'
          ∧ (∀ t, t ∈ s' ↔ t ∈ s ∨ False)
          ∧ ∀ c, c ≠ channel → installed' !! c = installed !! c
    | Abort why => why = Raised UnicodeDecodeError
    end).
  { intros tr0 [= <- <-]. split; [done|]. exists s. naive_solver. }
  destruct (Py.bytes_split line) as [|f0 [|f1 [|f2 fs]]].
  - intros H. destruct (Hsame _ H) as [-> Hr]. split; [done|].
    destruct r; [|done]. destruct Hr as (s' & ? & Ht & ?). exists s'.
    split_and!; [done| |done]. intros t. rewrite Ht. naive_solver.
  - intros H. destruct (Hsame _ H) as [-> Hr]. split; [done|].
    destruct r; [|done]. destruct Hr as (s' & ? & Ht & ?). exists s'.
    split_and!; [done| |done]. intros t. rewrite Ht. naive_solver.
  - rewrite bind_unfold. unfold decode_utf8.
    destruct (Py.utf8_valid f1); [|by intros [= <- <-]].
    cbn [mret M_ret]. case_decide as Hm.
    + subst f1. rewrite bind_unfold.
      destruct (Py.utf8_valid f0); [|by intros [= <- <-]].
      cbn [mret M_ret]. rewrite bind_unfold. unfold getitem. rewrite Hs.
      intros [= <- <-]. split; [done|].
      exists (s ∪ {[f0]}). split_and!.
      * by rewrite lookup_insert_eq.
      * intros t. rewrite elem_of_union, elem_of_singleton. naive_solver.
      * intros c Hc. by rewrite lookup_insert_ne.
    + intros [= <- <-]. split; [done|]. exists s. split_and!; [done| |done].
      intros t. naive_solver.
  - intros H. destruct (Hsame _ H) as [-> Hr]. split; [done|].
    destruct r; [|done]. destruct Hr as (s' & ? & Ht & ?). exists s'.
    split_and!; [done| |done]. intros t. rewrite Ht. naive_solver.
Qed.

Lemma scan_lines_inv ls (installed : gmap string (gset string)) s tr tr' r :
  installed !! channel = Some s →
  for_fold ls (scan_line channel) installed tr = (tr', r) →
  tr' = tr ∧
  match r with
  | Ok installed' =>
      ∃ s', installed' !! channel = Some s'
        ∧ (∀ t, t ∈ s' ↔ t ∈ s ∨ ∃ line, line ∈ ls ∧ marks_installed line t)
        ∧ ∀ c, c ≠ channel → installed' !! c = installed !! c
  | Abort why => why = Raised UnicodeDecodeError
  end.
Proof.
  revert installed s tr. induction ls as [|l ls IH]; intros installed s tr Hs.
  - intros [= <- <-]. split; [done|]. exists s. split_and!; [done| |done].
    intros t. set_solver.
  - simpl. rewrite bind_unfold.
    destruct (scan_line channel l installed tr) as [tr1 r1] eqn:E1.
    destruct (scan_line_inv _ _ _ _ _ _ Hs E1) as [-> Hr1].
    destruct r1 as [inst1|why1]; [|by intros [= <- <-]].
    destruct Hr1 as (s1 & Hs1 & Ht1 & Ho1). intros E2.
    destruct (IH _ _ _ Hs1 E2) as [-> Hr]. split; [done|].
    destruct r as [inst2|]; [|done].
    destruct Hr as (s2 & Hs2 & Ht2 & Ho2). exists s2. split_and!; [done| |].
    + intros t. rewrite Ht2, Ht1. set_solver.
    + intros c Hc. rewrite Ho2, Ho1; done.
Qed.

End listing.

(** ** Traces on which every command succeeded *)

Lemma runs_ok_nil w : runs_ok w [].
Proof. intros h e rest H. by destruct h. Qed.

Lemma runs_ok_snoc w tr e : runs_ok w (tr ++ [e]) ↔ runs_ok w tr ∧ ev_ok w tr e.
Proof.
  split.
  - intros H. split.
    + intros h e' rest ->. apply (H h e' (rest ++ [e])). by rewrite <-app_assoc.
    + apply (H tr e []). done.
  - intros [Htr He] h e' rest Heq.
    destruct rest as [|x rest _] using rev_ind.
    + apply app_inj_tail in Heq as [-> ->]. done.
    + rewrite app_comm_cons, app_assoc in Heq.
      apply app_inj_tail in Heq as [-> _]. by eapply Htr.
Qed.

Lemma runs_ok_app_l w tr1 tr2 : runs_ok w (tr1 ++ tr2) → runs_ok w tr1.
Proof.
  intros H h e rest ->. apply (H h e (rest ++ tr2)). by rewrite <-app_assoc.
Qed.

Lemma runs_ok_quiet w tr e :
  runs_ok w tr → (∀ h, ev_ok w h e) → runs_ok w (tr ++ [e]).
Proof. intros. apply runs_ok_snoc. auto. Qed.

(** ** The listing phase *)

Section query.
Context (w : World).

Lemma scan_channel_inv channel (installed : gmap string (gset string)) tr tr' r :
  scan_channel w channel installed tr = (tr', r) →
  let argv := Py.str_split (list_command channel) in
  match r with
  | Ok installed' =>
      ∃ out err s',
        w tr argv = Some (Completed 0 out err)
        ∧ tr' = tr ++ [RunCaptured argv]
        ∧ installed' !! channel = Some s'
        ∧ (∀ t, t ∈ s' ↔ ∃ line, line ∈ Py.splitlines out ∧ marks_installed line t)
        ∧ ∀ c, c ≠ channel → installed' !! c = installed !! c
  | Abort why =>
      (why = Raised OSError ∧ w tr argv = None ∧ tr' = tr ++ [RunCaptured argv])
      ∨ (why = SysExit 1 ∧ ∃ cp, w tr argv = Some cp ∧ returncode cp ≠ 0
           ∧ tr' = tr ++ [RunCaptured argv; PrintBytes (stderr cp)])
      ∨ (why = Raised UnicodeDecodeError ∧ tr' = tr ++ [RunCaptured argv]
           ∧ returncode <$> w tr argv = Some 0)
  end.
Proof.
  unfold scan_channel. cbv zeta. rewrite bind_unfold. unfold subprocess_run.
  destruct (w tr (Py.str_split (list_command channel))) as [[rc out err]|] eqn:Ew;
    [|intros [= <- <-]; by left].
  cbn [returncode stdout stderr]. case_decide as Hrc.
  - rewrite bind_unfold. unfold print_bytes, emit, sys_exit, stop.
    intros [= <- <-]. right; left. split; [done|].
    eexists. split_and!; [done..|]. by rewrite <-app_assoc.
  - assert (rc = 0) as -> by (destruct (decide (rc = 0)); [done|contradiction]).
    intros E.
    eapply (scan_lines_inv channel _ _ ∅) in E as [-> Hr];
      [|by rewrite lookup_insert_eq].
    destruct r as [installed'|why].
    + destruct Hr as (s' & Hs' & Ht & Ho). exists out, err, s'.
      split_and!; [done..| |].
      * intros t. rewrite Ht. set_solver.
      * intros c Hc. rewrite Ho by done. by rewrite lookup_insert_ne.
    + right; right. by subst.
Qed.

(** What the two listings leave behind. *)
Lemma get_installed_targets_inv tr0 tr r :
  get_installed_targets w tr0 = (tr, r) →
  (∃ q, tr = tr0 ++ q ∧ Forall query_event q) ∧
  match r with
  | Ok installed =>
      (runs_ok w tr0 → runs_ok w tr)
      ∧ is_Some (installed !! "stable") ∧ is_Some (installed !! "nightly")
  | Abort why =>
      (why = SysExit 1 ∨ ∃ e, why = Raised e)
      ∧ (runs_ok w tr0 → runs_ok w tr → why = Raised UnicodeDecodeError)
  end.
Proof.
  unfold get_installed_targets. simpl. rewrite bind_unfold.
  destruct (scan_channel w "stable" ∅ tr0) as [tr1 r1] eqn:E1.
  apply scan_channel_inv in E1. cbv zeta in E1.
  destruct r1 as [inst1|why1].
  - destruct E1 as (out1 & err1 & s1 & Hw1 & -> & Hs1 & _ & _).
    rewrite bind_unfold.
    destruct (scan_channel w "nightly" inst1 _) as [tr2 r2] eqn:E2.
    apply scan_channel_inv in E2. cbv zeta in E2.
    destruct r2 as [inst2|why2].
    + destruct E2 as (out2 & err2 & s2 & Hw2 & -> & Hs2 & _ & Ho2).
      intros [= <- <-]. split.
      { eexists [_; _]. rewrite <-app_assoc. split; [done|].
        repeat constructor. }
      split_and!; [|by rewrite Ho2|done].
      intros H0. apply runs_ok_snoc. split; [apply runs_ok_snoc; split; [done|]|].
      * simpl. by rewrite Hw1.
      * simpl. by rewrite Hw2.
    + intros [= <- <-].
      destruct E2 as [(-> & Hw2 & ->)|[(-> & cp & Hw2 & Hrc & ->)|(-> & -> & Hw2)]].
      * split; [eexists [_; _]; rewrite <-app_assoc; split;
                [done|repeat constructor]|].
        split; [eauto|]. intros _ [_ H]%runs_ok_snoc. simpl in H.
        by rewrite Hw2 in H.
      * split; [eexists [_; _; _]; rewrite <-app_assoc; split;
                [done|repeat constructor]|].
        split; [eauto|]. intros _ H.
        change (?a ++ [?x; ?y]) with (a ++ [x] ++ [y]) in H.
        rewrite app_assoc in H. apply runs_ok_app_l, runs_ok_snoc in H as [_ H].
        simpl in H. rewrite Hw2 in H. simpl in H. congruence.
      * split; [eexists [_; _]; rewrite <-app_assoc; split;
                [done|repeat constructor]|].
        split; [eauto|]. done.
  - intros [= <- <-].
    destruct E1 as [(-> & Hw1 & ->)|[(-> & cp & Hw1 & Hrc & ->)|(-> & -> & Hw1)]].
    + split; [eexists [_]; split; [done|repeat constructor]|].
      split; [eauto|]. intros _ [_ H]%runs_ok_snoc. simpl in H.
      by rewrite Hw1 in H.
    + split; [eexists [_; _]; split; [done|repeat constructor]|].
      split; [eauto|]. intros _ H.
      change (?a ++ [?x; ?y]) with (a ++ [x] ++ [y]) in H.
      rewrite app_assoc in H. apply runs_ok_app_l, runs_ok_snoc in H as [_ H].
      simpl in H. rewrite Hw1 in H. simpl in H. congruence.
    + split; [eexists [_]; split; [done|repeat constructor]|].
      split; [eauto|]. done.
Qed.

End query.

(** ** Running commands *)

Section commands.
Context (w : World).

Lemma run_command_eq command tr :
  run_command w command tr =
  (tr ++ render command,
   match w (tr ++ [Print (blue command)]) (Py.str_split command) with
   | Some cp => if decide (returncode cp ≠ 0) then Abort (SysExit 1) else Ok ()
   | None => Abort (Raised OSError)
   end).
Proof.
  unfold run_command, render. rewrite bind_unfold. unfold print, emit.
  rewrite bind_unfold. unfold subprocess_run.
  change (tr ++ [?x; ?y]) with (tr ++ [x] ++ [y]). rewrite app_assoc.
  destruct (w _ _) as [cp|]; [|done]. by case_decide.
Qed.

Lemma run_commands_inv cmds tr0 tr r :
  runs_ok w tr0 →
  for_each cmds (run_command w) tr0 = (tr, r) →
  ∃ done, done `prefix_of` cmds ∧ tr = tr0 ++ (done ≫= render) ∧
    match r with
    | Ok _ => done = cmds ∧ runs_ok w tr
    | Abort why => stopped_by_failure w tr why
    end.
Proof.
  revert tr0. induction cmds as [|c cmds IH]; intros tr0 H0.
  - intros [= <- <-]. exists []. split_and!; [done|by rewrite app_nil_r|done..].
  - simpl. rewrite bind_unfold, run_command_eq.
    assert (Hecho : runs_ok w (tr0 ++ [Print (blue c)])) by by apply runs_ok_quiet.
    assert (Hsplit : tr0 ++ render c = (tr0 ++ [Print (blue c)]) ++ [Run (Py.str_split c)])
      by by rewrite <-app_assoc.
    destruct (w _ _) as [cp|] eqn:Ew.
    + case_decide as Hrc.
      * intros [= <- <-]. exists [c]. split_and!.
        { by apply prefix_cons, prefix_nil. }
        { simpl. by rewrite ?app_nil_r. }
        eexists _, _. split; [exact Hsplit|]. split; [done|]. left. eauto.
      * intros E. apply IH in E as (done & Hp & -> & Hr).
        { exists (c :: done).
          split_and!; [by apply prefix_cons|simpl; by rewrite <-!app_assoc|].
          destruct r; [|done]. by destruct Hr as [-> ?]. }
        rewrite Hsplit. apply runs_ok_snoc. split; [done|].
        simpl. rewrite Ew. simpl. by rewrite Hrc.
    + intros [= <- <-]. exists [c]. split_and!.
      { by apply prefix_cons, prefix_nil. }
      { simpl. by rewrite ?app_nil_r. }
      eexists _, _. split; [exact Hsplit|]. split; [done|]. right. eauto.
Qed.

Lemma for_each_end (m : M unit) tr :
  (m ≫= λ _, mret ()) tr = m tr.
Proof. rewrite bind_unfold. by destruct (m tr) as [tr1 [[]|?]]. Qed.

Lemma triple_step_eq (snapshot : gmap string (gset string)) channel t tr :
  is_Some (snapshot !! channel) →
  (s ← getitem snapshot channel;
   (if decide (t ∉ s) then run_rustup_target_install w channel t else mret ()) ≫= λ _,
   run_cargo_check w channel t) tr =
  for_each (triple_commands snapshot channel t) (run_command w) tr.
Proof.
  intros [s Hs]. unfold triple_commands, installed_for, getitem.
  rewrite Hs. simpl. rewrite bind_unfold. cbn [mret M_ret].
  unfold run_rustup_target_install, run_cargo_check.
  case_decide; simpl; rewrite !bind_unfold.
  - destruct (run_command w _ tr) as [tr1 [[]|?]]; [|done].
    by rewrite for_each_end.
  - unfold mret, M_ret.
    by destruct (run_command w _ tr) as [tr1 [[]|?]].
Qed.

Lemma check_triples_eq (snapshot : gmap string (gset string)) channel ts tr :
  is_Some (snapshot !! channel) →
  check_triples w snapshot channel ts tr =
  for_each (ts ≫= triple_commands snapshot channel) (run_command w) tr.
Proof.
  intros Hs. unfold check_triples. revert tr.
  induction ts as [|t ts IH]; intros tr; [done|].
  change ((t :: ts) ≫= ?f) with (f t ++ (ts ≫= f)).
  rewrite for_each_app. cbn [for_each]. rewrite (bind_unfold (for_each _ _)).
  rewrite <-triple_step_eq by done. rewrite bind_unfold.
  match goal with |- context [let (_, _) := ?m tr in _] =>
    destruct (m tr) as [tr1 [[]|?]] end; [|done].
  apply IH.
Qed.

Lemma platforms_eq (snapshot : gmap string (gset string)) (es : list entry) tr :
  Forall (λ e, is_Some (snapshot !! e.1)) es →
  for_each es (λ '(channel, ts), check_triples w snapshot channel ts) tr =
  for_each (es ≫= entry_commands snapshot) (run_command w) tr.
Proof.
  intros Hes. revert tr. induction Hes as [|[ch ts] es He _ IH]; intros tr; [done|].
  change ((?e :: es) ≫= ?f) with (f e ++ (es ≫= f)).
  rewrite for_each_app. cbn [for_each]. rewrite !bind_unfold.
  rewrite check_triples_eq by done. unfold entry_commands at 1. cbn [fst snd].
  destruct (for_each _ _ tr) as [tr1 [[]|?]]; [|done]. apply IH.
Qed.

Lemma selection_loop_eq (snapshot : gmap string (gset string)) (oss : catalog) args tr :
  Forall (λ e, is_Some (snapshot !! e.1)) (dict_values oss) →
  for_each args (λ os,
    match dict_get oss os with
    | None => print (unrecognized oss os) ≫= λ _, sys_exit 1
    | Some (channel, ts) => check_triples w snapshot channel ts
    end) tr =
  (for_each ((selection oss args).1 ≫= entry_commands snapshot) (run_command w) ≫= λ _,
   match (selection oss args).2 with
   | None => mret ()
   | Some os => print (unrecognized oss os) ≫= λ _, sys_exit 1
   end) tr.
Proof.
  intros Hoss. revert tr. induction args as [|os args IH]; intros tr; [done|].
  cbn [for_each selection]. rewrite bind_unfold.
  destruct (dict_get oss os) as [[ch ts]|] eqn:Eg.
  - assert (is_Some (snapshot !! ch)) as Hch.
    { clear -Hoss Eg. induction oss as [|[k v] oss IHo]; [done|].
      simpl in Eg. apply Forall_cons in Hoss as [Hv Hoss].
      case_decide; [by simplify_eq|]. by apply IHo. }
    rewrite check_triples_eq by done.
    destruct (selection oss args) as [es bad] eqn:Es. cbn [fst snd] in *.
    rewrite ?Eg. cbn [fst snd].
    change ((?e :: es) ≫= ?f) with (f e ++ (es ≫= f)).
    rewrite bind_unfold, for_each_app, bind_unfold.
    unfold entry_commands at 1. cbn [fst snd].
    destruct (for_each _ _ tr) as [tr1 [[]|?]]; [|done].
    rewrite IH. by rewrite bind_unfold.
  - rewrite ?Eg. done.
Qed.

End commands.

(** ** The catalog *)

Lemma OSS_cases sys_platform :
  (sys_platform = "darwin" ∧ OSS sys_platform = OSS_static ++ [("ios", ios_entry)])
  ∨ (sys_platform ≠ "darwin" ∧ OSS sys_platform = OSS_static).
Proof. unfold OSS. case_decide; [left|right]; done. Qed.

Lemma OSS_channels sys_platform :
  Forall listed_channel (dict_values (OSS sys_platform)).
Proof.
  destruct (OSS_cases sys_platform) as [[_ ->]|[_ ->]];
    repeat constructor; by (left + right).
Qed.

Lemma OSS_linux sys_platform :
  linux_triples (OSS sys_platform)
  = ["x86_64-unknown-linux-gnu"; "x86_64-unknown-linux-musl"]
  ∧ is_Some (dict_get (OSS sys_platform) "linux").
Proof. destruct (OSS_cases sys_platform) as [[_ ->]|[_ ->]]; by split. Qed.

(** ** [main] issues its script *)

Section main_script.
Context (w : World).

Lemma for_each_fmap {A B} (f : A → B) (xs : list A) (body : B → M unit) tr :
  for_each (f <$> xs) body tr = for_each xs (λ x, body (f x)) tr.
Proof.
  revert tr. induction xs as [|x xs IH]; intros tr; [done|].
  simpl. rewrite !bind_unfold. destruct (body (f x) tr) as [tr1 [[]|?]]; [|done].
  apply IH.
Qed.

Lemma check_linux_no_default_eq sys_platform tr :
  check_linux_no_default w (OSS sys_platform) tr =
  for_each (no_default_commands (OSS sys_platform)) (run_command w) tr.
Proof.
  unfold check_linux_no_default, no_default_commands, linux_triples.
  destruct (OSS_linux sys_platform) as [_ [[ch ts] ->]].
  by rewrite for_each_fmap.
Qed.

Lemma main_eq sys_platform argv tr0 :
  main w sys_platform argv tr0 =
  (snapshot ← get_installed_targets w;
   for_each (script snapshot (OSS sys_platform) argv).1 (run_command w) ≫= λ _,
   finish (OSS sys_platform) (script snapshot (OSS sys_platform) argv).2) tr0.
Proof.
  unfold main. cbv zeta. rewrite !(bind_unfold (get_installed_targets w)).
  destruct (get_installed_targets w tr0) as [t0 [snapshot|why]] eqn:Eq; [|done].
  apply get_installed_targets_inv in Eq as [_ (_ & Hst & Hni)].
  assert (Forall (λ e : entry, is_Some (snapshot !! e.1))
            (dict_values (OSS sys_platform))) as Hkeys.
  { eapply Forall_impl; [apply OSS_channels|]. by intros e [-> | ->]. }
  unfold script. case_decide as Hlen.
  - cbn [fst snd finish]. rewrite for_each_end, for_each_app, !bind_unfold.
    rewrite platforms_eq by done.
    destruct (for_each _ _ t0) as [t1 [[]|?]]; [|done].
    apply check_linux_no_default_eq.
  - rewrite bind_unfold, selection_loop_eq by done. rewrite bind_unfold.
    destruct (selection (OSS sys_platform) (drop 1 argv)) as [es bad].
    cbn [fst snd]. destruct bad as [os|].
    + cbn [fst snd finish]. rewrite !bind_unfold.
      by destruct (for_each _ _ t0) as [t1 [[]|?]].
    + destruct (argv !! 1%nat) as [first|].
      * cbn [fst snd finish]. rewrite for_each_end, for_each_app, bind_unfold.
        destruct (for_each _ _ t0) as [t1 [[]|?]]; [|done].
        cbn [mret M_ret]. destruct (Py.contains "linux" first); [|done].
        apply check_linux_no_default_eq.
      * cbn [fst snd finish]. rewrite bind_unfold.
        by destruct (for_each _ _ t0) as [t1 [[]|?]].
Qed.

End main_script.

(** ** The shape of every run *)

Lemma finish_inv w oss e t tr r :
  finish oss e t = (tr, r) →
  runs_ok w t →
  runs_ok w tr ∧
  match e with
  | Finished => tr = t ∧ r = Ok ()
  | UnknownOS os => tr = t ++ [Print (unrecognized oss os)] ∧ r = Abort (SysExit 1)
  | NoFirstArgument => tr = t ∧ r = Abort (Raised IndexError)
  end.
Proof.
  destruct e; simpl.
  - by intros [= <- <-].
  - intros [= <- <-] Ht. split; [|done]. by apply runs_ok_quiet.
  - by intros [= <- <-].
Qed.

Lemma run_has_shape w sys_platform argv tr r :
  run w sys_platform argv = (tr, r) →
  run_shape w (OSS sys_platform) argv tr r.
Proof.
  unfold run. rewrite main_eq, bind_unfold.
  destruct (get_installed_targets w []) as [t0 [snapshot|why]] eqn:Eq.
  - rewrite bind_unfold.
    destruct (for_each _ _ t0) as [t1 [[]|why]] eqn:Ec.
    + intros Ef. apply run_commands_inv in Ec as (done & _ & -> & -> & Hok).
      * by eapply shape_through.
      * by apply (get_installed_targets_inv _ _ _ _ Eq), runs_ok_nil.
    + intros [= <- <-]. apply run_commands_inv in Ec as (done & Hp & -> & Hstop).
      * by eapply shape_stopped.
      * by apply (get_installed_targets_inv _ _ _ _ Eq), runs_ok_nil.
  - intros [= <- <-]. by apply shape_query.
Qed.

(** ** What the script contains *)

Lemma dict_get_values {V} (d : list (string * V)) k v :
  dict_get d k = Some v → v ∈ dict_values d.
Proof.
  induction d as [|[k' v'] d IH]; [done|]. simpl. case_decide.
  - intros [= ->]. apply list_elem_of_here.
  - intros H'. apply list_elem_of_further. by apply IH.
Qed.

Lemma selection_entries (oss : catalog) args e :
  e ∈ (selection oss args).1 →
  ∃ os, os ∈ args ∧ dict_get oss os = Some e.
Proof.
  induction args as [|os args IH]; simpl; [by intros ?%elem_of_nil|].
  destruct (dict_get oss os) as [e'|] eqn:Eg; [|by intros ?%elem_of_nil].
  destruct (selection oss args) as [es bad]. cbn [fst] in *.
  intros [->|He]%elem_of_cons.
  - exists os. split; [apply list_elem_of_here|done].
  - destruct (IH He) as (os' & ? & ?). exists os'.
    split; [by apply list_elem_of_further|done].
Qed.

Lemma selection_all_known (oss : catalog) args :
  Forall (λ os, is_Some (dict_get oss os)) args →
  (selection oss args).2 = None.
Proof.
  induction 1 as [|os args [e He] _ IH]; [done|]. simpl. rewrite He.
  by destruct (selection oss args).
Qed.

Lemma selection_first_unknown (oss : catalog) pre os post :
  Forall (λ os, is_Some (dict_get oss os)) pre →
  dict_get oss os = None →
  (selection oss (pre ++ os :: post)).2 = Some os
  ∧ ∀ e, e ∈ (selection oss (pre ++ os :: post)).1 →
      ∃ p, p ∈ pre ∧ dict_get oss p = Some e.
Proof.
  intros Hpre Hos. induction Hpre as [|p pre [e' He'] _ IH]; simpl.
  - rewrite Hos. split; [done|]. by intros e ?%elem_of_nil.
  - rewrite He'. destruct (selection oss (pre ++ os :: post)) as [es bad].
    cbn [fst snd] in *. destruct IH as [-> IH]. split; [done|].
    intros e [->|He]%elem_of_cons.
    + exists p. split; [apply list_elem_of_here|done].
    + destruct (IH _ He) as (p' & ? & ?). exists p'.
      split; [by apply list_elem_of_further|done].
Qed.

Lemma selected_in_catalog (oss : catalog) argv e :
  e ∈ selected oss argv → e ∈ dict_values oss.
Proof.
  unfold selected. case_decide; [done|].
  intros (os & _ & Hg)%selection_entries. by eapply dict_get_values.
Qed.

(** The script is the commands of the selected entries, followed by the
    no-default-features commands or by nothing. *)
Lemma script_commands (snapshot : gmap string (gset string)) (oss : catalog) argv :
  ∃ tail,
    (script snapshot oss argv).1
    = (selected oss argv ≫= entry_commands snapshot) ++ tail
    ∧ (tail = [] ∨
       tail = no_default_commands oss
       ∧ (script snapshot oss argv).2 = Finished
       ∧ (length argv = 1%nat
          ∨ ∃ first, argv !! 1%nat = Some first ∧ Py.contains "linux" first = true)).
Proof.
  unfold script, selected. case_decide as Hlen.
  - eexists. split; [done|]. right. auto.
  - destruct (selection oss (drop 1 argv)) as [es [os|]]; cbn [fst snd].
    + exists []. by rewrite app_nil_r; auto.
    + destruct (argv !! 1%nat) as [first|] eqn:E1; cbn [fst snd].
      * destruct (Py.contains "linux" first) eqn:Ec.
        -- eexists. split; [done|]. right. eauto 6.
        -- eexists. split; [done|]. by left.
      * exists []. by rewrite app_nil_r; auto.
Qed.

(** ** Where the processes of a run come from *)

Lemma query_no_run q argv : Forall query_event q → Run argv ∉ q.
Proof. intros Hq Hin. by apply (proj1 (Forall_forall _ _) Hq) in Hin. Qed.

Lemma query_no_print q s : Forall query_event q → Print s ∉ q.
Proof. intros Hq Hin. by apply (proj1 (Forall_forall _ _) Hq) in Hin. Qed.

Lemma elem_of_render argv cmds :
  Run argv ∈ cmds ≫= render ↔ ∃ c, c ∈ cmds ∧ argv = Py.str_split c.
Proof.
  rewrite list_elem_of_bind. unfold render. split.
  - intros (c & Hin & Hc). exists c. split; [done|].
    apply elem_of_cons in Hin as [?|Hin]; [done|].
    apply list_elem_of_singleton in Hin. by injection Hin.
  - intros (c & Hc & ->). exists c. split; [|done].
    apply list_elem_of_further, list_elem_of_here.
Qed.

Lemma listing_events w tr r :
  get_installed_targets w [] = (tr, r) → Forall query_event tr.
Proof. by intros [(q & -> & Hq) _]%get_installed_targets_inv. Qed.

Lemma listing_runs_ok w tr snapshot :
  get_installed_targets w [] = (tr, Ok snapshot) → runs_ok w tr.
Proof.
  intros [_ (H & _)]%get_installed_targets_inv. apply H, runs_ok_nil.
Qed.

(** Every install or check process of a run is a command of its script. *)
Lemma run_event_in_script w sys_platform argv tr r a :
  run w sys_platform argv = (tr, r) →
  Run a ∈ tr →
  ∃ t0 snapshot c,
    get_installed_targets w [] = (t0, Ok snapshot)
    ∧ c ∈ (script snapshot (OSS sys_platform) argv).1
    ∧ a = Py.str_split c.
Proof.
  intros Hrun%run_has_shape Hin.
  destruct Hrun as [tr why Hq|t0 snapshot done why Hq Hp _|t0 snapshot tr r Hq Hok Hf].
  - by apply listing_events, query_no_run with (argv := a) in Hq.
  - apply elem_of_app in Hin as [Hin|Hin].
    { by apply listing_events, query_no_run with (argv := a) in Hq. }
    apply elem_of_render in Hin as (c & Hc & ->).
    exists t0, snapshot, c. split_and!; [done| |done].
    destruct Hp as [k ->]. apply elem_of_app. by left.
  - assert (Run a ∈ t0 ++ (script snapshot (OSS sys_platform) argv).1 ≫= render)
      as Hin'.
    { apply (finish_inv w) in Hf as [_ Hf]; [|done].
      destruct (script snapshot (OSS sys_platform) argv).2.
      - by destruct Hf as [-> _].
      - destruct Hf as [-> _]. apply elem_of_app in Hin as [?|Hin]; [done|].
        by apply list_elem_of_singleton in Hin.
      - by destruct Hf as [-> _]. }
    apply elem_of_app in Hin' as [Hin'|Hin'].
    { by apply listing_events, query_no_run with (argv := a) in Hq. }
    apply elem_of_render in Hin' as (c & Hc & ->). by exists t0, snapshot, c.
Qed.

Lemma entry_command_cases (snapshot : gmap string (gset string)) (e : entry) c :
  c ∈ entry_commands snapshot e →
  ∃ t, t ∈ e.2
    ∧ (c = install_command e.1 t ∧ t ∉ installed_for snapshot e.1
       ∨ c = check_command e.1 t).
Proof.
  unfold entry_commands. intros (t & Hc & Ht)%list_elem_of_bind.
  exists t. split; [done|]. unfold triple_commands in Hc.
  apply elem_of_app in Hc as [Hc|Hc].
  - case_decide; [|by apply elem_of_nil in Hc].
    apply list_elem_of_singleton in Hc. by left.
  - apply list_elem_of_singleton in Hc. by right.
Qed.

Lemma script_command_cases (snapshot : gmap string (gset string)) (oss : catalog) argv c :
  c ∈ (script snapshot oss argv).1 →
  (∃ e t, e ∈ selected oss argv ∧ t ∈ e.2
     ∧ (c = install_command e.1 t ∧ t ∉ installed_for snapshot e.1
        ∨ c = check_command e.1 t))
  ∨ (c ∈ no_default_commands oss
     ∧ (length argv = 1%nat
        ∨ ∃ first, argv !! 1%nat = Some first ∧ Py.contains "linux" first = true)).
Proof.
  destruct (script_commands snapshot oss argv) as (tail & -> & Htail).
  intros [Hc|Hc]%elem_of_app.
  - left. apply list_elem_of_bind in Hc as (e & Hc & He).
    apply entry_command_cases in Hc as (t & ? & ?). by exists e, t.
  - destruct Htail as [->|(-> & _ & ?)]; [by apply elem_of_nil in Hc|].
    by right.
Qed.

(** A command that did not succeed is the last event of the run. *)
Lemma failure_is_last w sys_platform argv tr r h a rest :
  run w sys_platform argv = (tr, r) →
  tr = h ++ Run a :: rest →
  returncode <$> w h a ≠ Some 0 →
  rest = []
  ∧ ((∃ cp, w h a = Some cp ∧ r = Abort (SysExit 1))
     ∨ (w h a = None ∧ r = Abort (Raised OSError))).
Proof.
  intros Hrun%run_has_shape Htr Hbad.
  assert (∀ t rest', runs_ok w t → t = h ++ Run a :: rest' → False) as Hno.
  { intros t rest' Hok ->. apply Hbad, (Hok h (Run a) rest' eq_refl). }
  destruct Hrun as [tr why Hq|t0 snapshot done why Hq Hp Hs|t0 snapshot tr r Hq Hok Hf].
  - apply listing_events, query_no_run with (argv := a) in Hq.
    destruct Hq. rewrite Htr. apply elem_of_app. right. apply list_elem_of_here.
  - destruct Hs as (pre & a' & Hpre & Hok & Hwhy). rewrite Hpre in Htr.
    destruct rest as [|x rest _] using rev_ind.
    + apply app_inj_tail in Htr as [-> [= ->]]. split; [done|].
      destruct Hwhy as [(cp & ? & _ & ->)|[? ->]]; eauto.
    + rewrite app_comm_cons, app_assoc in Htr.
      apply app_inj_tail in Htr as [-> _]. by destruct (Hno _ _ Hok eq_refl).
  - apply (finish_inv w) in Hf as [Hok' _]; [|done].
    by destruct (Hno _ _ Hok' Htr).
Qed.

Lemma selection_some_unknown (oss : catalog) args os :
  os ∈ args → dict_get oss os = None →
  ∃ os', (selection oss args).2 = Some os'.
Proof.
  intros Hin Hos. induction args as [|x args IH]; [by apply elem_of_nil in Hin|].
  simpl. destruct (dict_get oss x) as [e|] eqn:Ex; [|by exists x].
  apply elem_of_cons in Hin as [->|Hin]; [congruence|].
  destruct (IH Hin) as [os' Hos']. exists os'.
  by destruct (selection oss args).
Qed.

(** How a run ends when no name is unknown, and when one is. *)
Lemma script_ending_known (snapshot : gmap string (gset string)) (oss : catalog) argv :
  argv ≠ [] →
  Forall (λ os, is_Some (dict_get oss os)) (drop 1 argv) →
  (script snapshot oss argv).2 = Finished.
Proof.
  intros Hne Hall. unfold script. case_decide as Hlen; [done|].
  apply selection_all_known in Hall.
  destruct (selection oss (drop 1 argv)) as [es bad]. cbn [snd] in Hall. subst bad.
  destruct argv as [|prog [|first rest]]; done.
Qed.

Lemma script_ending_unknown (snapshot : gmap string (gset string)) (oss : catalog) argv os :
  os ∈ drop 1 argv → dict_get oss os = None →
  ∃ os', (script snapshot oss argv).2 = UnknownOS os'.
Proof.
  intros Hin Hos. unfold script. case_decide as Hlen.
  { destruct argv as [|prog [|]]; try done. by apply elem_of_nil in Hin. }
  destruct (selection_some_unknown _ _ _ Hin Hos) as [os' Hos'].
  destruct (selection oss (drop 1 argv)) as [es bad]. cbn [snd] in Hos'. subst bad.
  by exists os'.
Qed.

(** No run ends with a status other than 0 and 1. *)
Lemma abort_status w sys_platform argv tr why :
  run w sys_platform argv = (tr, Abort why) → exit_status (Abort why) = 1.
Proof.
  intros Hrun%run_has_shape. inversion Hrun as
    [tr' why' Hq|t0 snapshot done why' Hq Hp Hs|t0 snapshot tr' r' Hq Hok Hf]; subst.
  - apply get_installed_targets_inv in Hq as [_ [[->|[e ->]] _]]; done.
  - destruct Hs as (pre & a & _ & _ & [(cp & _ & _ & ->)|[_ ->]]); done.
  - apply (finish_inv w) in Hf as [_ Hf]; [|done].
    destruct (script snapshot (OSS sys_platform) argv).2;
      destruct Hf as [_ Hf]; by simplify_eq.
Qed.

(** ** Commands read back from their argument vectors *)

Lemma OSS_reads_back sys_platform :
  Forall entry_reads_back (dict_values (OSS sys_platform))
  ∧ Forall (λ t, reads_back (ANoDefault t)) (linux_triples (OSS sys_platform)).
Proof.
  destruct (OSS_cases sys_platform) as [[_ ->]|[_ ->]]; split;
    repeat (constructor; [repeat (constructor; [by vm_compute|])|]);
    repeat (constructor; [by vm_compute|]); constructor.
Qed.

Lemma action_inj a1 a2 :
  reads_back a1 → reads_back a2 →
  Py.str_split (command_of a1) = Py.str_split (command_of a2) → a1 = a2.
Proof. unfold reads_back. intros H1 H2 Heq. rewrite Heq in H1. congruence. Qed.

Lemma catalog_entry_reads_back sys_platform (e : entry) t :
  e ∈ dict_values (OSS sys_platform) → t ∈ e.2 →
  reads_back (AInstall e.1 t) ∧ reads_back (ACheck e.1 t).
Proof.
  intros He Ht. destruct (OSS_reads_back sys_platform) as [H _].
  apply (proj1 (Forall_forall _ _) H) in He.
  by apply (proj1 (Forall_forall _ _) He) in Ht.
Qed.

(** The action behind each command of a script, and why it is there. *)
Lemma script_command_action (snapshot : gmap string (gset string)) sys_platform argv c :
  c ∈ (script snapshot (OSS sys_platform) argv).1 →
  ∃ act, c = command_of act ∧ reads_back act ∧
    match act with
    | AInstall channel t =>
        ∃ e : entry, e ∈ selected (OSS sys_platform) argv ∧ e.1 = channel ∧ t ∈ e.2
             ∧ t ∉ installed_for snapshot channel
    | ACheck channel t =>
        ∃ e : entry, e ∈ selected (OSS sys_platform) argv ∧ e.1 = channel ∧ t ∈ e.2
    | ANoDefault t =>
        t ∈ linux_triples (OSS sys_platform)
        ∧ (length argv = 1%nat
           ∨ ∃ first, argv !! 1%nat = Some first ∧ Py.contains "linux" first = true)
    end.
Proof.
  intros [(e & t & He & Ht & Hc)|[Hc Hsel]]%script_command_cases.
  - pose proof (selected_in_catalog _ _ _ He) as Hcat.
    destruct (catalog_entry_reads_back _ _ _ Hcat Ht) as [Hi Hk].
    destruct Hc as [[-> Hfresh]| ->].
    + exists (AInstall e.1 t). split_and!; [done..|]. by exists e.
    + exists (ACheck e.1 t). split_and!; [done..|]. by exists e.
  - unfold no_default_commands in Hc.
    apply list_elem_of_fmap in Hc as (t & -> & Ht).
    exists (ANoDefault t). split_and!; [done| |done..].
    destruct (OSS_reads_back sys_platform) as [_ H].
    by apply (proj1 (Forall_forall _ _) H) in Ht.
Qed.

(** An install process in a run is for a triple that the snapshot lacks. *)
Lemma install_event_fresh w sys_platform argv tr r t0 snapshot (e : entry) t :
  get_installed_targets w [] = (t0, Ok snapshot) →
  run w sys_platform argv = (tr, r) →
  e ∈ dict_values (OSS sys_platform) → t ∈ e.2 →
  Run (Py.str_split (install_command e.1 t)) ∈ tr →
  t ∉ installed_for snapshot e.1.
Proof.
  intros Hq Hrun He Ht Hin.
  destruct (run_event_in_script _ _ _ _ _ _ Hrun Hin) as (t0' & snapshot' & c & Hq' & Hc & Heq).
  rewrite Hq in Hq'. injection Hq' as <- <-.
  apply script_command_action in Hc as (act & -> & Hact & Hwhy).
  destruct (catalog_entry_reads_back _ _ _ He Ht) as [Hi _].
  assert (AInstall e.1 t = act) as <- by by apply action_inj.
  by destruct Hwhy as (e' & _ & _ & _ & ?).
Qed.

Lemma parse_argv_program a act :
  parse_argv a = Some act →
  head a = Some (match act with AInstall _ _ => "rustup" | _ => "cargo" end).
Proof.
  destruct a as [|prog [|x [|y [|z [|t [|]]]]]]; try done; unfold parse_argv.
  - case_decide as Hp; [|done]. subst prog.
    repeat case_decide; try done.
    + destruct (strip_prefix "--target=" y); [|done]. by intros [= <-].
    + destruct (strip_prefix "+" x); [|done]. simpl.
      destruct (strip_prefix "--target=" z); [|done]. by intros [= <-].
  - case_decide as Hp; [|done]. destruct Hp as (-> & _ & _).
    destruct (strip_prefix "+" x); [|done]. by intros [= <-].
Qed.

(** A run whose commands all succeeded, and whose listings decoded,
    went through its whole script. *)
Lemma clean_run_through w sys_platform argv tr r :
  run w sys_platform argv = (tr, r) →
  runs_ok w tr →
  r ≠ Abort (Raised UnicodeDecodeError) →
  ∃ t0 snapshot,
    get_installed_targets w [] = (t0, Ok snapshot)
    ∧ runs_ok w (t0 ++ ((script snapshot (OSS sys_platform) argv).1 ≫= render))
    ∧ finish (OSS sys_platform) (script snapshot (OSS sys_platform) argv).2
        (t0 ++ ((script snapshot (OSS sys_platform) argv).1 ≫= render)) = (tr, r).
Proof.
  intros Hs%run_has_shape Hok Hdec.
  destruct Hs as [tr why Hq|t0 snapshot done why Hq Hp Hs|t0 snapshot tr r Hq Hok' Hf].
  - apply get_installed_targets_inv in Hq as [_ [_ Hq]].
    destruct Hdec. f_equal. apply Hq; [apply runs_ok_nil|done].
  - destruct Hs as (pre & a & Hpre & _ & Hbad). rewrite Hpre in Hok.
    apply runs_ok_snoc in Hok as [_ Hok]. simpl in Hok.
    destruct Hbad as [(cp & Hw & Hrc & _)|[Hw _]]; rewrite Hw in Hok;
      simpl in Hok; congruence.
  - by exists t0, snapshot.
Qed.

(** The script of an argument list with an unknown name. *)
Lemma script_first_unknown (snapshot : gmap string (gset string)) (oss : catalog)
    argv pre os post :
  drop 1 argv = pre ++ os :: post →
  Forall (λ p, is_Some (dict_get oss p)) pre →
  dict_get oss os = None →
  (script snapshot oss argv).2 = UnknownOS os
  ∧ ∀ c, c ∈ (script snapshot oss argv).1 →
      ∃ p (e : entry) t, p ∈ pre ∧ dict_get oss p = Some e ∧ t ∈ e.2
        ∧ (c = install_command e.1 t ∨ c = check_command e.1 t).
Proof.
  intros Hargs Hpre Hos. unfold script. case_decide as Hlen.
  { destruct argv as [|prog [|]]; simpl in *; try done; by destruct pre. }
  rewrite Hargs.
  destruct (selection_first_unknown oss pre os post Hpre Hos) as [Hbad Hes].
  destruct (selection oss (pre ++ os :: post)) as [es bad].
  cbn [fst snd] in *. subst bad. split; [done|].
  intros c (e & Hc & He)%list_elem_of_bind.
  destruct (Hes _ He) as (p & Hp & Hg).
  apply entry_command_cases in Hc as (t & Ht & Hc).
  exists p, e, t. split_and!; [done..|]. destruct Hc as [[-> _]| ->]; auto.
Qed.

Lemma unknown_name_status w sys_platform argv os tr r :
  os ∈ drop 1 argv → dict_get (OSS sys_platform) os = None →
  run w sys_platform argv = (tr, r) →
  exit_status r = 1.
Proof.
  intros Hin Hos Hrun. destruct r as [[]|why]; [|by eapply abort_status].
  apply run_has_shape in Hrun.
  inversion Hrun as [| |t0 snapshot tr' r' Hq Hok Hf]; subst.
  apply (finish_inv w) in Hf as [_ Hf]; [|done].
  destruct (script_ending_unknown snapshot _ _ _ Hin Hos) as [os' Hos'].
  rewrite Hos' in Hf. by destruct Hf.
Qed.

(** ** The checks of a trace *)

Lemma filter_checks_query q :
  Forall query_event q → filter is_check_event q = [].
Proof.
  induction 1 as [|e q He _ IH]; [done|].
  rewrite filter_cons_False; [done|]. destruct e; simpl in *; tauto.
Qed.

Lemma filter_checks_entry (snapshot : gmap string (gset string)) (e : entry) :
  entry_reads_back e →
  filter is_check_event (entry_commands snapshot e ≫= render)
  = (t ← e.2; [Run (Py.str_split (check_command e.1 t))]).
Proof.
  unfold entry_reads_back, entry_commands.
  induction 1 as [|t ts [Hi Hk] _ IH]; [done|].
  change ((t :: ts) ≫= ?f) with (f t ++ (ts ≫= f)).
  rewrite bind_app, filter_app, IH. f_equal.
  unfold triple_commands, reads_back in *. simpl in Hi, Hk.
  case_decide; simpl.
  - rewrite filter_cons_False by (simpl; tauto).
    rewrite filter_cons_False by (simpl; rewrite Hi; simpl; tauto).
    rewrite filter_cons_False by (simpl; tauto).
    rewrite filter_cons_True by (simpl; by rewrite Hk). done.
  - rewrite filter_cons_False by (simpl; tauto).
    rewrite filter_cons_True by (simpl; by rewrite Hk). done.
Qed.

Lemma filter_checks_entries (snapshot : gmap string (gset string)) (es : list entry) :
  Forall entry_reads_back es →
  filter is_check_event ((es ≫= entry_commands snapshot) ≫= render)
  = (e ← es; t ← e.2; [Run (Py.str_split (check_command e.1 t))]).
Proof.
  induction 1 as [|e es He _ IH]; [done|].
  change ((e :: es) ≫= ?f) with (f e ++ (es ≫= f)).
  by rewrite bind_app, filter_app, IH, filter_checks_entry.
Qed.

Lemma filter_checks_no_default ts :
  Forall (λ t, reads_back (ANoDefault t)) ts →
  filter is_check_event ((no_default_command <$> ts) ≫= render) = [].
Proof.
  induction 1 as [|t ts Ht _ IH]; [done|]. unfold reads_back in Ht. simpl in Ht.
  rewrite fmap_cons.
  change ((?c :: ?cs) ≫= render) with (render c ++ (cs ≫= render)).
  rewrite filter_app, IH. unfold render.
  rewrite filter_cons_False by (simpl; tauto).
  rewrite filter_cons_False by (simpl; rewrite Ht; simpl; tauto). done.
Qed.

(** The commands issued before an unknown name is met are those of the
    names that come before it. *)
Lemma selection_prefix (oss : catalog) {B} (f : entry → list B) pre os post :
  Forall (λ p, is_Some (dict_get oss p)) pre →
  dict_get oss os = None →
  ((selection oss (pre ++ os :: post)).1 ≫= f)
  = (p ← pre; match dict_get oss p with Some e => f e | None => [] end).
Proof.
  intros Hpre Hos.
  induction Hpre as [|p pre [e' He'] _ IH]; cbn [app selection].
  - by rewrite Hos.
  - rewrite He'. destruct (selection oss (pre ++ os :: post)) as [es bad].
    cbn [fst snd] in *.
    change ((?x :: ?l) ≫= ?g) with (g x ++ (l ≫= g)). cbv beta.
    by rewrite He', IH.
Qed.

Lemma script_unknown_commands (snapshot : gmap string (gset string)) (oss : catalog)
    argv pre os post :
  drop 1 argv = pre ++ os :: post →
  Forall (λ p, is_Some (dict_get oss p)) pre →
  dict_get oss os = None →
  (script snapshot oss argv).1 = argument_commands snapshot oss pre.
Proof.
  intros Hargs Hpre Hos. unfold script, argument_commands. case_decide as Hlen.
  { destruct argv as [|prog [|]]; simpl in *; try done; by destruct pre. }
  rewrite Hargs.
  pose proof (selection_prefix oss (entry_commands snapshot) pre os post Hpre Hos) as Hsel.
  destruct (selection_first_unknown oss pre os post Hpre Hos) as [Hbad _].
  destruct (selection oss (pre ++ os :: post)) as [es bad].
  cbn [fst snd] in *. by subst bad.
Qed.

(** The checks among the commands of the names [args]. *)
Lemma filter_checks_arguments (snapshot : gmap string (gset string)) sys_platform args :
  filter is_check_event
    (argument_commands snapshot (OSS sys_platform) args ≫= render)
  = argument_checks (OSS sys_platform) args.
Proof.
  unfold argument_commands, argument_checks.
  induction args as [|os args IH]; [done|].
  change ((?x :: ?l) ≫= ?g) with (g x ++ (l ≫= g)). cbv beta.
  rewrite bind_app, filter_app, IH. f_equal.
  destruct (dict_get (OSS sys_platform) os) as [e|] eqn:Eg; [|done].
  apply filter_checks_entry.
  destruct (OSS_reads_back sys_platform) as [H _].
  apply (proj1 (Forall_forall _ _) H). by eapply dict_get_values.
Qed.

(** Among the keys of the catalog, only "linux" contains "linux". *)
Lemma linux_key_only sys_platform k :
  is_Some (dict_get (OSS sys_platform) k) →
  Py.contains "linux" k = true → k = "linux".
Proof.
  intros [e He] Hc.
  destruct (OSS_cases sys_platform) as [[_ Hoss]|[_ Hoss]]; rewrite Hoss in He;
    cbn in He; repeat case_decide; simplify_eq; try done;
    by vm_compute in Hc.
Qed.

(** * The claims *)

(** ** The text primitives on examples *)

Example bytes_split_ex :
  Py.bytes_split ("  a" +:+ Py.chr 9 +:+ "(installed)  ") = ["a"; "(installed)"].
Proof. reflexivity. Qed.

Example splitlines_ex :
  Py.splitlines ("a" +:+ Py.chr 13 +:+ Py.chr 10 +:+ Py.chr 10 +:+ "b" +:+ Py.chr 10)
  = ["a"; EmptyString; "b"].
Proof. reflexivity. Qed.

Example utf8_valid_ex :
  Py.utf8_valid (Py.chr 195 +:+ Py.chr 169) = true
  ∧ Py.utf8_valid (Py.chr 255) = false
  ∧ Py.utf8_valid (Py.chr 237 +:+ Py.chr 160 +:+ Py.chr 128) = false.
Proof. done. Qed.

Example str_of_list_ex : Py.str_of_list ["a"; "b"] = "['a', 'b']".
Proof. reflexivity. Qed.

Example contains_ex :
  Py.contains "linux" "my-linux-box" = true ∧ Py.contains "linux" "linu" = false.
Proof. done. Qed.

Example unrecognized_ex :
  unrecognized (OSS "linux") "bogus-os"
  = "Unrecognized OS 'bogus-os'. Must be one of: ['android', 'freebsd', 'linux', 'macos', 'redox', 'netbsd', 'windows'].".
Proof. reflexivity. Qed.

(** A marker other than the bare one makes three fields, or a second
    field that differs: such lines mark nothing. *)
Example other_markers_ex :
  ∀ t, (¬ marks_installed "wasm32-unknown-unknown (installed, default)" t)
       ∧ (¬ marks_installed "x86_64-unknown-linux-gnu (default)" t)
       ∧ (¬ marks_installed "x86_64-unknown-linux-musl" t).
Proof. intros t. unfold marks_installed. split_and!; by vm_compute. Qed.

(** ** C9: the catalog *)

(** C9. The catalog is a function of the host identifier alone: it is
    the static table of seven entries, followed by the entry "ios"
    (channel "stable", its two triples) exactly when the identifier is
    "darwin"; and every run is explained by that one table, which it
    reads and never changes. *)
Theorem C9_catalog_of_host (sys_platform : string) :
  OSS sys_platform
  = OSS_static
    ++ (if decide (sys_platform = "darwin")
        then [("ios", ("stable", ["aarch64-apple-ios"; "x86_64-apple-ios"]))]
        else [])
  ∧ length OSS_static = 7%nat
  ∧ ("ios" ∉ dict_keys OSS_static)
  ∧ (length (OSS sys_platform) = 8%nat ↔ sys_platform = "darwin")
  ∧ ∀ w argv,
      run_shape w (OSS sys_platform) argv
        (run w sys_platform argv).1 (run w sys_platform argv).2.
Proof.
  split_and!.
  - unfold OSS. case_decide; [done|]. by rewrite app_nil_r.
  - done.
  - compute_done.
  - destruct (OSS_cases sys_platform) as [[-> ->]|[Hne ->]]; [done|].
    split; [by vm_compute|done].
  - intros w argv. apply run_has_shape. by destruct (run w sys_platform argv).
Qed.

(** ** C10: what the listing marks installed *)

(** C10. When the listing phase returns a snapshot, both listing
    commands exited with 0, and for each of the two channels a triple
    is in the channel's set exactly when some line of that channel's
    captured output splits into the triple followed by "(installed)"
    and nothing else. *)
Theorem C10_snapshot_of_listing (w : World) (tr0 tr : trace)
    (snapshot : gmap string (gset string)) :
  get_installed_targets w tr0 = (tr, Ok snapshot) →
  ∃ out_s err_s out_n err_n,
    w tr0 (Py.str_split (list_command "stable"))
      = Some (Completed 0 out_s err_s)
    ∧ w (tr0 ++ [RunCaptured (Py.str_split (list_command "stable"))])
        (Py.str_split (list_command "nightly"))
      = Some (Completed 0 out_n err_n)
    ∧ (∀ t, t ∈ installed_for snapshot "stable"
            ↔ ∃ line, line ∈ Py.splitlines out_s ∧ marks_installed line t)
    ∧ (∀ t, t ∈ installed_for snapshot "nightly"
            ↔ ∃ line, line ∈ Py.splitlines out_n ∧ marks_installed line t).
Proof.
  unfold get_installed_targets. simpl. rewrite bind_unfold.
  destruct (scan_channel w "stable" ∅ tr0) as [tr1 [inst1|?]] eqn:E1; [|done].
  apply scan_channel_inv in E1 as (out1 & err1 & s1 & Hw1 & -> & Hs1 & Ht1 & _).
  rewrite bind_unfold.
  destruct (scan_channel w "nightly" inst1 _) as [tr2 [inst2|?]] eqn:E2; [|done].
  intros [= <- <-].
  apply scan_channel_inv in E2 as (out2 & err2 & s2 & Hw2 & _ & Hs2 & Ht2 & Ho2).
  exists out1, err1, out2, err2. split_and!; [done..| |].
  - unfold installed_for. by rewrite Ho2, Hs1.
  - unfold installed_for. by rewrite Hs2.
Qed.

Lemma C10_snapshot_of_listing_witness :
  ∃ out_s out_n,
    (∀ t, t ∈ installed_for
            (default ∅ (match (get_installed_targets (calm_world sample_listing) []).2
                        with Ok s => Some s | Abort _ => None end)) "stable"
          ↔ ∃ line, line ∈ Py.splitlines out_s ∧ marks_installed line t)
    ∧ out_s = sample_listing ∧ out_n = sample_listing.
Proof.
  destruct (C10_snapshot_of_listing (calm_world sample_listing) []
              (get_installed_targets (calm_world sample_listing) []).1
              (default ∅ (match (get_installed_targets (calm_world sample_listing) []).2
                          with Ok s => Some s | Abort _ => None end)))
    as (out_s & err_s & out_n & err_n & Hs & Hn & Hts & Htn).
  - vm_compute. reflexivity.
  - exists out_s, out_n. split; [exact Hts|].
    split; [by injection Hs|by injection Hn].
Defined.

(** ** C6: the first failure ends the run *)

(** C6. If an install or check command of a run exits with a non-zero
    code, that process is the last event of the run: nothing is echoed
    or started after it (no later triple, no later platform), and the
    run exits. *)
Theorem C6_failure_ends_the_run (w : World) (sys_platform : string)
    (argv : list string) (tr : trace) (r : res unit)
    (h : trace) (a : list string) (rest : trace) (cp : CompletedProcess) :
  run w sys_platform argv = (tr, r) →
  tr = h ++ Run a :: rest →
  w h a = Some cp →
  returncode cp ≠ 0 →
  rest = [] ∧ r = Abort (SysExit 1).
Proof.
  intros Hrun Htr Hw Hrc.
  destruct (failure_is_last _ _ _ _ _ _ _ _ Hrun Htr) as [-> Hr].
  { rewrite Hw. simpl. congruence. }
  split; [done|]. destruct Hr as [(cp' & _ & ->)|[Hnone _]]; [done|congruence].
Qed.

Lemma C6_failure_ends_the_run_witness :
  run (cargo_fails_world sample_listing) "linux" ["check.py"; "linux"; "macos"]
  = ((listings_taken ++ [Print (blue check_gnu)]) ++ [Run check_gnu_argv],
     Abort (SysExit 1))
  ∧ (@nil event = [] ∧ Abort (SysExit 1) = @Abort unit (SysExit 1)).
Proof.
  split; [by vm_compute|].
  apply (C6_failure_ends_the_run (cargo_fails_world sample_listing) "linux"
           ["check.py"; "linux"; "macos"]
           ((listings_taken ++ [Print (blue check_gnu)]) ++ [Run check_gnu_argv])
           (Abort (SysExit 1))
           (listings_taken ++ [Print (blue check_gnu)]) check_gnu_argv
           [] (Completed 101 sample_listing EmptyString)).
  - vm_compute. reflexivity.
  - reflexivity.
  - reflexivity.
  - simpl. lia.
Defined.

(** ** C7: the exit status *)

(** C7 as worded fails: cargo exits with 101, the run with 1. *)
Lemma C7_exit_code_not_propagated :
  ¬ exit_code_propagated (cargo_fails_world sample_listing) "linux"
      ["check.py"; "linux"].
Proof.
  intros H.
  specialize (H
    ((listings_taken ++ [Print (blue check_gnu)]) ++ [Run check_gnu_argv])
    (Abort (SysExit 1))
    (listings_taken ++ [Print (blue check_gnu)]) check_gnu_argv
    [] (Completed 101 sample_listing EmptyString)
    ltac:(vm_compute; reflexivity) eq_refl eq_refl ltac:(simpl; lia)).
  simpl in H. lia.
Qed.

(** C7, amended. The status is 0 when every command issued succeeded
    (and each argument is a catalog name, and the listings decode); it
    is 1, whatever the code of the command, when an install or check
    command exits with a non-zero code; and it is 1 when some argument
    is not a catalog name. *)
Theorem C7_exit_status (w : World) (sys_platform : string)
    (argv : list string) (tr : trace) (r : res unit) :
  run w sys_platform argv = (tr, r) →
  (runs_ok w tr → argv ≠ [] →
   Forall (λ os, is_Some (dict_get (OSS sys_platform) os)) (drop 1 argv) →
   r ≠ Abort (Raised UnicodeDecodeError) →
   exit_status r = 0)
  ∧ (∀ h a rest cp,
       tr = h ++ Run a :: rest → w h a = Some cp → returncode cp ≠ 0 →
       exit_status r = 1)
  ∧ (∀ os, os ∈ drop 1 argv → dict_get (OSS sys_platform) os = None →
       exit_status r = 1).
Proof.
  intros Hrun. split_and!.
  - intros Hok Hne Hall Hdec.
    destruct (clean_run_through _ _ _ _ _ Hrun Hok Hdec) as (t0 & snapshot & Hq & Hok' & Hf).
    apply (finish_inv w) in Hf as [_ Hf]; [|done].
    rewrite script_ending_known in Hf by done. by destruct Hf as [_ ->].
  - intros h a rest cp Htr Hw Hrc.
    destruct (failure_is_last _ _ _ _ _ _ _ _ Hrun Htr) as [_ Hr].
    { rewrite Hw. simpl. congruence. }
    destruct Hr as [(cp' & _ & ->)|[_ ->]]; done.
  - intros os Hin Hos. by eapply unknown_name_status.
Qed.

Lemma C7_exit_status_witness :
  exit_status (run (calm_world sample_listing) "linux" ["check.py"; "linux"]).2 = 0
  ∧ exit_status
      (run (cargo_fails_world sample_listing) "linux" ["check.py"; "linux"]).2 = 1
  ∧ exit_status
      (run (calm_world sample_listing) "linux" ["check.py"; "bogus-os"]).2 = 1.
Proof.
  split_and!.
  - destruct (C7_exit_status (calm_world sample_listing) "linux"
                ["check.py"; "linux"] _ _ (surjective_pairing _)) as (H & _ & _).
    apply H.
    + intros h e rest _. by destruct e.
    + done.
    + constructor; [by eexists|constructor].
    + by vm_compute.
  - destruct (C7_exit_status (cargo_fails_world sample_listing) "linux"
                ["check.py"; "linux"]
                ((listings_taken ++ [Print (blue check_gnu)]) ++ [Run check_gnu_argv])
                (Abort (SysExit 1)) ltac:(vm_compute; reflexivity)) as (_ & H & _).
    apply (H (listings_taken ++ [Print (blue check_gnu)]) check_gnu_argv []
             (Completed 101 sample_listing EmptyString)).
    + reflexivity.
    + reflexivity.
    + simpl. lia.
  - destruct (C7_exit_status (calm_world sample_listing) "linux"
                ["check.py"; "bogus-os"] _ _ (surjective_pairing _)) as (_ & _ & H).
    apply (H "bogus-os"); [apply list_elem_of_here|reflexivity].
Defined.

(** ** C1: an unknown platform name *)

(** C1 as worded fails: the name before the unknown one is installed
    for and checked before the unknown one is looked at. *)
Lemma C1_work_before_rejection :
  ¬ rejected_before_any_work (calm_world sample_listing) "linux"
      ["check.py"; "linux"; "bogus-os"].
Proof.
  intros H.
  destruct (H "bogus-os" _ _ ltac:(compute_done) eq_refl (surjective_pairing _))
    as (_ & _ & Hno).
  apply (Hno check_gnu_argv). compute_done.
Qed.

(** C1, amended. When some argument is not a catalog name, the run
    exits with status 1, and the only install and check processes are
    those of the catalog names given before the first unknown one (none
    when it comes first): nothing is run for it or for a later
    argument.  The names before it are processed before it is rejected:
    if every command issued succeeded and the listings decoded, the
    trace of the run is the listings, then, for each name before the
    first unknown one, in order, the commands of each of its triples
    (the install where the snapshot lacks the triple, then the check),
    and last the message for the first unknown name, with the list of
    the catalog names; so the checks of the run are exactly those of
    the names before the unknown one. *)
Theorem C1_unknown_name (w : World) (sys_platform : string)
    (argv pre : list string) (os : string) (post : list string)
    (tr : trace) (r : res unit) :
  drop 1 argv = pre ++ os :: post →
  Forall (λ p, is_Some (dict_get (OSS sys_platform) p)) pre →
  dict_get (OSS sys_platform) os = None →
  run w sys_platform argv = (tr, r) →
  exit_status r = 1
  ∧ (∀ a, Run a ∈ tr →
       ∃ p (e : entry) t,
         p ∈ pre ∧ dict_get (OSS sys_platform) p = Some e ∧ t ∈ e.2
         ∧ (a = Py.str_split (install_command e.1 t)
            ∨ a = Py.str_split (check_command e.1 t)))
  ∧ (pre = [] → ∀ a, Run a ∉ tr)
  ∧ (runs_ok w tr → r ≠ Abort (Raised UnicodeDecodeError) →
     r = Abort (SysExit 1)
     ∧ (∃ t0 snapshot,
          get_installed_targets w [] = (t0, Ok snapshot)
          ∧ tr = t0
                 ++ (argument_commands snapshot (OSS sys_platform) pre ≫= render)
                 ++ [Print (unrecognized (OSS sys_platform) os)])
     ∧ filter is_check_event tr = argument_checks (OSS sys_platform) pre).
Proof.
  intros Hargs Hpre Hos Hrun.
  assert (∀ a, Run a ∈ tr →
       ∃ p (e : entry) t,
         p ∈ pre ∧ dict_get (OSS sys_platform) p = Some e ∧ t ∈ e.2
         ∧ (a = Py.str_split (install_command e.1 t)
            ∨ a = Py.str_split (check_command e.1 t))) as Hruns.
  { intros a Hin.
    destruct (run_event_in_script _ _ _ _ _ _ Hrun Hin) as (t0 & snapshot & c & _ & Hc & ->).
    destruct (script_first_unknown snapshot _ _ _ _ _ Hargs Hpre Hos) as [_ Hcmds].
    destruct (Hcmds _ Hc) as (p & e & t & ? & ? & ? & [-> | ->]);
      exists p, e, t; auto. }
  split_and!.
  - eapply unknown_name_status; [|done..]. rewrite Hargs.
    apply elem_of_app. right. apply list_elem_of_here.
  - done.
  - intros -> a Hin. destruct (Hruns _ Hin) as (p & _ & _ & Hp & _).
    by apply elem_of_nil in Hp.
  - intros Hok Hdec.
    destruct (clean_run_through _ _ _ _ _ Hrun Hok Hdec) as (t0 & snapshot & Hq & Hok' & Hf).
    apply (finish_inv w) in Hf as [_ Hf]; [|done].
    destruct (script_first_unknown snapshot _ _ _ _ _ Hargs Hpre Hos) as [Hend _].
    rewrite Hend in Hf.
    rewrite (script_unknown_commands snapshot _ _ _ _ _ Hargs Hpre Hos) in Hf.
    destruct Hf as [-> ->]. split_and!.
    + done.
    + exists t0, snapshot. by rewrite <- app_assoc.
    + rewrite !filter_app.
      rewrite (filter_checks_query t0) by by eapply listing_events.
      rewrite filter_checks_arguments. simpl. by rewrite app_nil_r.
Qed.

Lemma C1_unknown_name_witness :
  exit_status (run (calm_world sample_listing) "linux" linux_then_bogus).2 = 1
  ∧ filter is_check_event
      (run (calm_world sample_listing) "linux" linux_then_bogus).1
    = argument_checks (OSS "linux") ["linux"].
Proof.
  destruct (C1_unknown_name (calm_world sample_listing) "linux"
              linux_then_bogus ["linux"] "bogus-os" [] _ _
              eq_refl ltac:(constructor; [by eexists|constructor]) eq_refl
              (surjective_pairing _))
    as (Hst & _ & _ & Hwork).
  split; [exact Hst|].
  destruct Hwork as (_ & _ & Hchecks).
  - intros h e rest _. by destruct e.
  - by vm_compute.
  - exact Hchecks.
Defined.

(** What C1_unknown_name gives on "linux bogus-os": both linux triples
    are checked, the second one after its install, before the message. *)
Example linux_then_bogus_ex :
  run (calm_world sample_listing) "linux" linux_then_bogus
  = (listings_taken
     ++ render (check_command "stable" "x86_64-unknown-linux-gnu")
     ++ render (install_command "stable" "x86_64-unknown-linux-musl")
     ++ render (check_command "stable" "x86_64-unknown-linux-musl")
     ++ [Print "Unrecognized OS 'bogus-os'. Must be one of: ['android', 'freebsd', 'linux', 'macos', 'redox', 'netbsd', 'windows']."],
     Abort (SysExit 1)).
Proof. by vm_compute. Qed.

(** ** C2: what selects the no-default-features pass *)

(** C2. With explicit arguments, a no-default-features check of a linux
    triple is run only if the first argument contains "linux"; and in a
    run that completes, the pass (the no-default-features check of each
    linux triple, in order, at the end of the run) is executed exactly
    when the first argument contains "linux". *)
Theorem C2_first_argument_decides (w : World) (sys_platform prog first : string)
    (rest : list string) (tr : trace) (r : res unit) :
  run w sys_platform (prog :: first :: rest) = (tr, r) →
  (∀ t, t ∈ linux_triples (OSS sys_platform) →
        Run (Py.str_split (no_default_command t)) ∈ tr →
        Py.contains "linux" first = true)
  ∧ (r = Ok () → Py.contains "linux" first = true →
     ∃ tr', tr = tr' ++ (no_default_commands (OSS sys_platform) ≫= render))
  ∧ (r = Ok () →
     (Py.contains "linux" first = true
      ↔ ∀ t, t ∈ linux_triples (OSS sys_platform) →
             Run (Py.str_split (no_default_command t)) ∈ tr)).
Proof.
  intros Hrun.
  assert (∀ t, t ∈ linux_triples (OSS sys_platform) →
        Run (Py.str_split (no_default_command t)) ∈ tr →
        Py.contains "linux" first = true) as Honly.
  { intros t Ht Hin.
    destruct (run_event_in_script _ _ _ _ _ _ Hrun Hin) as (t0 & snapshot & c & _ & Hc & Heq).
    apply script_command_action in Hc as (act & -> & Hact & Hwhy).
    assert (reads_back (ANoDefault t)) as Hnd.
    { destruct (OSS_reads_back sys_platform) as [_ H].
      by apply (proj1 (Forall_forall _ _) H) in Ht. }
    assert (ANoDefault t = act) as <- by by apply action_inj.
    destruct Hwhy as [_ [Hlen|(first' & [= <-] & Hc)]]; done. }
  assert (r = Ok () → Py.contains "linux" first = true →
     ∃ tr', tr = tr' ++ (no_default_commands (OSS sys_platform) ≫= render)) as Hpass.
  { intros -> Hc. apply run_has_shape in Hrun.
    inversion Hrun as [| |t0 snapshot tr' r' Hq Hok Hf]; subst.
    apply (finish_inv w) in Hf as [_ Hf]; [|done]. revert Hf.
    unfold script. case_decide as Hlen; [done|].
    destruct (selection _ _) as [es [os|]]; cbn [fst snd]; [by intros [_ ?]|].
    cbn [lookup list_lookup]. rewrite Hc. cbn [fst snd]. intros [-> _].
    rewrite bind_app, app_assoc. eauto. }
  split_and!; [done..|]. intros Hr. split.
  - intros Hc t Ht. destruct (Hpass Hr Hc) as [tr' ->].
    apply elem_of_app. right. apply elem_of_render.
    exists (no_default_command t). split; [|done].
    unfold no_default_commands. by apply list_elem_of_fmap_2.
  - intros Hall. destruct (OSS_linux sys_platform) as [Hl _].
    apply (Honly "x86_64-unknown-linux-gnu").
    + rewrite Hl. apply list_elem_of_here.
    + apply Hall. rewrite Hl. apply list_elem_of_here.
Qed.

Lemma C2_first_argument_decides_witness :
  (Py.contains "linux" "linux" = true
   ↔ ∀ t, t ∈ linux_triples (OSS "linux") →
          Run (Py.str_split (no_default_command t))
          ∈ (run (calm_world sample_listing) "linux" ["check.py"; "linux"; "macos"]).1)
  ∧ (Py.contains "linux" "macos" = true
     ↔ ∀ t, t ∈ linux_triples (OSS "linux") →
            Run (Py.str_split (no_default_command t))
            ∈ (run (calm_world sample_listing) "linux" macos_then_linux).1).
Proof.
  split.
  - apply (C2_first_argument_decides (calm_world sample_listing) "linux"
             "check.py" "linux" ["macos"] _ _ (surjective_pairing _)).
    by vm_compute.
  - apply (C2_first_argument_decides (calm_world sample_listing) "linux"
             "check.py" "macos" ["linux"] _ _ (surjective_pairing _)).
    by vm_compute.
Defined.

(** ** C3: the pass when linux is not the first name *)

(** C3 at its failing input.  With the arguments "macos linux" and every
    command succeeding, the linux platform is processed (both triples
    are checked) and the run ends with status 0, yet no
    no-default-features check is issued. *)
Theorem C3_linux_not_first_no_pass :
  run (calm_world sample_listing) "linux" macos_then_linux
  = (listings_taken
     ++ render (install_command "stable" "x86_64-apple-darwin")
     ++ render (check_command "stable" "x86_64-apple-darwin")
     ++ render (check_command "stable" "x86_64-unknown-linux-gnu")
     ++ render (install_command "stable" "x86_64-unknown-linux-musl")
     ++ render (check_command "stable" "x86_64-unknown-linux-musl"),
     Ok ())
  ∧ Forall (λ t, Run (Py.str_split (no_default_command t))
                 ∉ (run (calm_world sample_listing) "linux" macos_then_linux).1)
      (linux_triples (OSS "linux")).
Proof. split; [by vm_compute|]. compute_done. Qed.

(** ** C4: the full run *)

(** C4. In a run without arguments in which every command issued
    succeeded (and the listings decoded), the run completes, and the
    checks it issued are, in order, exactly one
    "cargo +channel check --target=triple" per triple of the catalog:
    platforms in the order of the catalog, triples in the order of
    their list. *)
Theorem C4_full_run_checks (w : World) (sys_platform prog : string)
    (tr : trace) (r : res unit) :
  run w sys_platform [prog] = (tr, r) →
  runs_ok w tr →
  r ≠ Abort (Raised UnicodeDecodeError) →
  r = Ok ()
  ∧ filter is_check_event tr = catalog_checks (OSS sys_platform)
  ∧ NoDup (catalog_checks (OSS sys_platform)).
Proof.
  intros Hrun Hok Hdec.
  destruct (clean_run_through _ _ _ _ _ Hrun Hok Hdec) as (t0 & snapshot & Hq & _ & Hf).
  unfold script in Hf. rewrite decide_True in Hf by done. cbn [fst snd finish] in Hf.
  injection Hf as <- <-. split; [done|]. split.
  - rewrite bind_app, !filter_app.
    rewrite (filter_checks_query t0) by by eapply listing_events.
    destruct (OSS_reads_back sys_platform) as [He Hl].
    rewrite filter_checks_entries by done.
    unfold no_default_commands. rewrite filter_checks_no_default by done.
    by rewrite app_nil_r.
  - destruct (OSS_cases sys_platform) as [[_ ->]|[_ ->]]; compute_done.
Qed.

Lemma C4_full_run_checks_witness :
  filter is_check_event (run (calm_world sample_listing) "darwin" ["check.py"]).1
  = catalog_checks (OSS "darwin").
Proof.
  apply (C4_full_run_checks (calm_world sample_listing) "darwin" "check.py"
           _ _ (surjective_pairing _)).
  - intros h e rest _. by destruct e.
  - by vm_compute.
Defined.

(** ** C5: triples that the snapshot reports installed *)

(** C5. A catalog triple that the snapshot taken by the listings
    reports installed for its channel is never installed by the run;
    and when the snapshot reports every catalog triple installed, every
    process the run starts after the listings is a cargo check (of a
    catalog triple, or the no-default-features check of a linux
    triple): there is no install. *)
Theorem C5_installed_not_reinstalled (w : World) (sys_platform : string)
    (argv : list string) (t0 : trace) (snapshot : gmap string (gset string))
    (tr : trace) (r : res unit) :
  get_installed_targets w [] = (t0, Ok snapshot) →
  run w sys_platform argv = (tr, r) →
  (∀ (e : entry) t,
     e ∈ dict_values (OSS sys_platform) → t ∈ e.2 →
     t ∈ installed_for snapshot e.1 →
     Run (Py.str_split (install_command e.1 t)) ∉ tr)
  ∧ ((∀ (e : entry) t,
        e ∈ dict_values (OSS sys_platform) → t ∈ e.2 →
        t ∈ installed_for snapshot e.1) →
     ∀ a, Run a ∈ tr →
       head a = Some "cargo"
       ∧ ((∃ (e : entry) t,
             e ∈ dict_values (OSS sys_platform) ∧ t ∈ e.2
             ∧ a = Py.str_split (check_command e.1 t))
          ∨ (∃ t, t ∈ linux_triples (OSS sys_platform)
               ∧ a = Py.str_split (no_default_command t)))).
Proof.
  intros Hq Hrun. split.
  - intros e t He Ht Hin Hev.
    by apply (install_event_fresh _ _ _ _ _ _ _ _ _ Hq Hrun He Ht Hev).
  - intros Hall a Hin.
    destruct (run_event_in_script _ _ _ _ _ _ Hrun Hin) as (t0' & snapshot' & c & Hq' & Hc & ->).
    rewrite Hq in Hq'. injection Hq' as <- <-.
    apply script_command_action in Hc as (act & -> & Hact & Hwhy).
    destruct act as [ch t|ch t|t].
    + destruct Hwhy as (e & He%selected_in_catalog & <- & Ht & Hfresh).
      destruct Hfresh. by apply Hall.
    + split; [by apply (parse_argv_program _ _ Hact)|]. left.
      destruct Hwhy as (e & He%selected_in_catalog & <- & Ht). by exists e, t.
    + split; [by apply (parse_argv_program _ _ Hact)|]. right.
      destruct Hwhy as [Ht _]. by exists t.
Qed.

Lemma C5_installed_not_reinstalled_witness :
  Forall (λ ev, match ev with
                | Run a => head a = Some "cargo"
                | _ => True
                end)
    (run (calm_world (full_listing (OSS "linux"))) "linux" ["check.py"]).1.
Proof.
  apply Forall_forall. intros [s|b|a|a] Hin; [done..| |done].
  destruct (C5_installed_not_reinstalled (calm_world (full_listing (OSS "linux")))
              "linux" ["check.py"]
              (get_installed_targets (calm_world (full_listing (OSS "linux"))) []).1
              (default ∅
                 (match (get_installed_targets
                           (calm_world (full_listing (OSS "linux"))) []).2
                  with Ok s => Some s | Abort _ => None end))
              _ _ ltac:(vm_compute; reflexivity) (surjective_pairing _))
    as [_ H].
  refine (proj1 (H _ a Hin)).
  intros e t He Ht. change (dict_values (OSS "linux")) with (dict_values OSS_static) in He.
  unfold OSS_static, dict_values in He. cbn [fmap list_fmap snd] in He.
  repeat (apply elem_of_cons in He as [->|He]);
    [..|by apply elem_of_nil in He]; cbn [snd] in Ht;
    repeat (apply elem_of_cons in Ht as [->|Ht]);
    try (by apply elem_of_nil in Ht); compute_done.
Defined.

(** ** C8: the snapshot decides, throughout the run *)

Lemma preceded_by_absent pat e l : e ∉ l → preceded_by pat e l.
Proof.
  intros Hno h rest ->. destruct Hno. apply elem_of_app. right.
  apply list_elem_of_here.
Qed.

Lemma preceded_by_app pat e l1 l2 :
  preceded_by pat e l1 → preceded_by pat e l2 → preceded_by pat e (l1 ++ l2).
Proof.
  intros H1 H2 h rest Heq.
  apply app_eq_app in Heq as [k [[-> Hk]|[-> Hk]]].
  - destruct k as [|x k].
    + simpl in Hk. destruct (H2 [] rest) as [h' Hh']; [done|].
      symmetry in Hh'. apply app_eq_nil in Hh' as [_ ->].
      exists h. by rewrite !app_nil_r.
    + injection Hk as <- ->. by apply (H1 h k).
  - destruct (H2 k rest Hk) as [h' ->]. exists (l1 ++ h').
    by rewrite app_assoc.
Qed.

Lemma preceded_by_app_l pat e l1 l2 :
  preceded_by pat e (l1 ++ l2) → preceded_by pat e l1.
Proof.
  intros H h rest ->. apply (H h (rest ++ l2)). by rewrite <-app_assoc.
Qed.

Section check_after_install.
Context (snapshot : gmap string (gset string)) (sys_platform : string).
Context (e : entry) (t : string).
Context (He : e ∈ dict_values (OSS sys_platform)) (Ht : t ∈ e.2).
Context (Hfresh : t ∉ installed_for snapshot e.1).

Lemma check_absent_from cmds :
  (∀ c, c ∈ cmds → ∃ act, c = command_of act ∧ reads_back act ∧ act ≠ ACheck e.1 t) →
  (check_event e t) ∉ cmds ≫= render.
Proof.
  intros Hcmds (c & Hc & Heq)%elem_of_render.
  destruct (Hcmds _ Hc) as (act & -> & Hact & Hne). destruct Hne.
  symmetry. apply action_inj; [|done..].
  by apply (catalog_entry_reads_back sys_platform).
Qed.

Lemma triple_block_preceded (e' : entry) t' :
  e' ∈ dict_values (OSS sys_platform) → t' ∈ e'.2 →
  preceded_by (install_then_echo e t) (check_event e t) (triple_commands snapshot e'.1 t' ≫= render).
Proof.
  intros He' Ht'.
  destruct (catalog_entry_reads_back _ _ _ He' Ht') as [Hi' Hk'].
  destruct (decide (ACheck e'.1 t' = ACheck e.1 t)) as [[= Heq1 Heq2]|Hne].
  - rewrite Heq1, Heq2. unfold triple_commands. rewrite decide_True by done.
    intros h rest Heq. cbn in Heq.
    destruct h as [|x1 [|x2 [|x3 [|x4 h]]]]; simplify_eq/=;
      [by eexists [_]|by destruct h].
  - apply preceded_by_absent, check_absent_from.
    intros c Hc. unfold triple_commands in Hc.
    apply elem_of_app in Hc as [Hc|Hc].
    + case_decide; [|by apply elem_of_nil in Hc].
      apply list_elem_of_singleton in Hc as ->. by exists (AInstall e'.1 t').
    + apply list_elem_of_singleton in Hc as ->. by exists (ACheck e'.1 t').
Qed.

Lemma triples_preceded (e' : entry) ts :
  e' ∈ dict_values (OSS sys_platform) →
  Forall (λ t', t' ∈ e'.2) ts →
  preceded_by (install_then_echo e t) (check_event e t)
    ((ts ≫= triple_commands snapshot e'.1) ≫= render).
Proof.
  intros He'. induction 1 as [|t' ts Ht' _ IH].
  { by apply preceded_by_absent, not_elem_of_nil. }
  change ((t' :: ts) ≫= ?f) with (f t' ++ (ts ≫= f)).
  rewrite bind_app. apply preceded_by_app; [|done].
  by apply triple_block_preceded.
Qed.

Lemma entries_preceded (es : list entry) :
  Forall (λ e', e' ∈ dict_values (OSS sys_platform)) es →
  preceded_by (install_then_echo e t) (check_event e t) ((es ≫= entry_commands snapshot) ≫= render).
Proof.
  induction 1 as [|e' es He' _ IH].
  { by apply preceded_by_absent, not_elem_of_nil. }
  change ((e' :: es) ≫= ?f) with (f e' ++ (es ≫= f)).
  rewrite bind_app. apply preceded_by_app; [|done].
  apply triples_preceded; [done|]. by apply Forall_forall.
Qed.

Lemma script_preceded argv :
  preceded_by (install_then_echo e t) (check_event e t)
    ((script snapshot (OSS sys_platform) argv).1 ≫= render).
Proof.
  destruct (script_commands snapshot (OSS sys_platform) argv) as (tail & -> & Htail).
  rewrite bind_app. apply preceded_by_app.
  - apply entries_preceded, Forall_forall. intros e'. apply selected_in_catalog.
  - apply preceded_by_absent, check_absent_from. intros c Hc.
    destruct Htail as [->|[-> _]]; [by apply elem_of_nil in Hc|].
    unfold no_default_commands in Hc.
    apply list_elem_of_fmap in Hc as (t' & -> & Ht').
    exists (ANoDefault t'). split_and!; [done| |done].
    destruct (OSS_reads_back sys_platform) as [_ H].
    by apply (proj1 (Forall_forall _ _) H) in Ht'.
Qed.

End check_after_install.

(** The snapshot is not refreshed: a triple installed earlier in the run
    is installed again when it is met again. *)
Example stale_snapshot_ex :
  run (calm_world sample_listing) "linux" linux_twice
  = (listings_taken
     ++ render (check_command "stable" "x86_64-unknown-linux-gnu")
     ++ render (install_command "stable" musl)
     ++ render (check_command "stable" musl)
     ++ render (check_command "stable" "x86_64-unknown-linux-gnu")
     ++ render (install_command "stable" musl)
     ++ render (check_command "stable" musl)
     ++ render (no_default_command "x86_64-unknown-linux-gnu")
     ++ render (no_default_command musl),
     Ok ()).
Proof. by vm_compute. Qed.

(** C8. The snapshot taken by the listings is what decides every
    install, for the whole run: wherever the check of a catalog triple
    occurs in the trace, it comes right after the install of that
    triple (and the echo of the check) exactly when the triple is not
    in the snapshot's set for its channel, whether or not the run has
    installed the triple before. *)
Theorem C8_snapshot_decides (w : World) (sys_platform : string)
    (argv : list string) (t0 : trace) (snapshot : gmap string (gset string))
    (tr : trace) (r : res unit) (e : entry) (t : string) (h rest : trace) :
  get_installed_targets w [] = (t0, Ok snapshot) →
  run w sys_platform argv = (tr, r) →
  e ∈ dict_values (OSS sys_platform) → t ∈ e.2 →
  tr = h ++ Run (Py.str_split (check_command e.1 t)) :: rest →
  (t ∉ installed_for snapshot e.1
   ↔ ∃ h', h = h' ++ [Run (Py.str_split (install_command e.1 t))]
                  ++ [Print (blue (check_command e.1 t))]).
Proof.
  intros Hq Hrun He Ht Htr. split.
  - intros Hfresh. revert h rest Htr.
    change (preceded_by (install_then_echo e t) (check_event e t) tr).
    pose proof (script_preceded snapshot sys_platform e t He Ht Hfresh argv) as Hs.
    assert (preceded_by (install_then_echo e t) (check_event e t) t0) as H0.
    { by apply preceded_by_absent, query_no_run, (listing_events w t0 (Ok snapshot)). }
    apply run_has_shape in Hrun.
    destruct Hrun as [tr why Hq'|t0' snapshot' done why Hq' Hp _|t0' snapshot' tr r Hq' Hok Hf];
      rewrite Hq in Hq'; simplify_eq.
    + apply preceded_by_app; [done|]. destruct Hp as [k Hk]. rewrite Hk, bind_app in Hs.
      by eapply preceded_by_app_l.
    + apply (finish_inv w) in Hf as [_ Hf]; [|done].
      destruct (script _ (OSS sys_platform) argv).2.
      * destruct Hf as [-> _]. by apply preceded_by_app.
      * destruct Hf as [-> _]. apply preceded_by_app; [by apply preceded_by_app|].
        apply preceded_by_absent. by intros ?%list_elem_of_singleton.
      * destruct Hf as [-> _]. by apply preceded_by_app.
  - intros [h' ->].
    eapply (install_event_fresh _ _ _ _ _ _ _ _ _ Hq Hrun He Ht).
    rewrite Htr, !elem_of_app, elem_of_cons. auto.
Qed.

Lemma C8_snapshot_decides_witness :
  ∃ h', take 13 (run (calm_world sample_listing) "linux" linux_twice).1
        = h' ++ [Run (Py.str_split (install_command "stable" musl))]
             ++ [Print (blue (check_command "stable" musl))].
Proof.
  apply (C8_snapshot_decides (calm_world sample_listing) "linux" linux_twice
           (get_installed_targets (calm_world sample_listing) []).1
           (default ∅
              (match (get_installed_targets (calm_world sample_listing) []).2
               with Ok s => Some s | Abort _ => None end))
           _ _ ("stable", ["x86_64-unknown-linux-gnu"; musl]) musl
           (take 13 (run (calm_world sample_listing) "linux" linux_twice).1)
           (drop 14 (run (calm_world sample_listing) "linux" linux_twice).1)
           ltac:(vm_compute; reflexivity) (surjective_pairing _)).
  - compute_done.
  - compute_done.
  - vm_compute. reflexivity.
  - compute_done.
Defined.

(** * Further properties of the script *)

(** ** The listing phase, case by case *)

Section listing_cases.
Context (w : World).

Lemma scan_line_undecodable channel line (installed : gmap string (gset string)) tr :
  is_Some (installed !! channel) →
  (undecodable line = true
   ∧ scan_line channel line installed tr = (tr, Abort (Raised UnicodeDecodeError)))
  ∨ (undecodable line = false
     ∧ ∃ installed', scan_line channel line installed tr = (tr, Ok installed')
                     ∧ is_Some (installed' !! channel)).
Proof.
  intros [s Hs]. unfold undecodable, scan_line.
  destruct (Py.bytes_split line) as [|f0 [|f1 [|f2 fs]]];
    try (right; split; [done|]; exists installed; by split).
  rewrite bind_unfold. unfold decode_utf8.
  destruct (Py.utf8_valid f1); cbn [negb orb]; [|by left].
  cbn [mret M_ret]. case_decide as Hm.
  - rewrite bool_decide_eq_true_2 by done. cbn [andb].
    rewrite bind_unfold. destruct (Py.utf8_valid f0); cbn [negb]; [|by left].
    right. split; [done|]. cbn [mret M_ret]. rewrite bind_unfold.
    unfold getitem. rewrite Hs. cbn [mret M_ret]. eexists. split; [done|].
    by rewrite lookup_insert_eq.
  - rewrite bool_decide_eq_false_2 by done. right. split; [done|].
    exists installed. by split.
Qed.

Lemma scan_lines_undecodable channel ls (installed : gmap string (gset string)) tr :
  is_Some (installed !! channel) →
  (existsb undecodable ls = true
   ∧ for_fold ls (scan_line channel) installed tr
     = (tr, Abort (Raised UnicodeDecodeError)))
  ∨ (existsb undecodable ls = false
     ∧ ∃ installed', for_fold ls (scan_line channel) installed tr = (tr, Ok installed')).
Proof.
  revert installed. induction ls as [|l ls IH]; intros installed Hs.
  { right. split; [done|]. by exists installed. }
  cbn [existsb for_fold]. rewrite bind_unfold.
  destruct (scan_line_undecodable channel l installed tr Hs)
    as [[-> ->]|[-> (inst1 & -> & Hs1)]]; [by left|].
  cbn [orb]. apply IH, Hs1.
Qed.

(** One channel: what the listing command answers decides the outcome. *)
Lemma scan_channel_cases channel (installed : gmap string (gset string)) tr :
  let argv := Py.str_split (list_command channel) in
  match w tr argv with
  | None =>
      scan_channel w channel installed tr
      = (tr ++ [RunCaptured argv], Abort (Raised OSError))
  | Some cp =>
      if decide (returncode cp = 0) then
        if existsb undecodable (Py.splitlines (stdout cp)) then
          scan_channel w channel installed tr
          = (tr ++ [RunCaptured argv], Abort (Raised UnicodeDecodeError))
        else
          ∃ installed',
            scan_channel w channel installed tr
            = (tr ++ [RunCaptured argv], Ok installed')
      else
        scan_channel w channel installed tr
        = (tr ++ [RunCaptured argv; PrintBytes (stderr cp)], Abort (SysExit 1))
  end.
Proof.
  cbv zeta. unfold scan_channel. cbv zeta. rewrite bind_unfold.
  unfold subprocess_run.
  destruct (w tr (Py.str_split (list_command channel))) as [cp|]; [|done].
  destruct (decide (returncode cp = 0)) as [Hz|Hnz].
  - rewrite decide_False by (by intros ?).
    destruct (scan_lines_undecodable channel (Py.splitlines (stdout cp))
                (<[channel := ∅]> installed) (tr ++ [RunCaptured (Py.str_split (list_command channel))]))
      as [[-> ->]|[-> [installed' ->]]]; [by rewrite lookup_insert_eq|done|eauto].
  - rewrite decide_True by done. rewrite bind_unfold.
    unfold print_bytes, emit, sys_exit, stop. by rewrite <-app_assoc.
Qed.

End listing_cases.

Lemma get_installed_targets_unfold w tr0 :
  get_installed_targets w tr0 =
  match scan_channel w "stable" ∅ tr0 with
  | (tr1, Ok installed) =>
      match scan_channel w "nightly" installed tr1 with
      | (tr2, Ok installed') => (tr2, Ok installed')
      | (tr2, Abort why) => (tr2, Abort why)
      end
  | (tr1, Abort why) => (tr1, Abort why)
  end.
Proof.
  unfold get_installed_targets. cbn [for_fold]. rewrite bind_unfold.
  destruct (scan_channel w "stable" ∅ tr0) as [tr1 [installed|why]]; [|done].
  by rewrite bind_unfold.
Qed.

(** X1. The listing phase returns a snapshot exactly when both listing
    commands exit with 0 and no line of their outputs is undecodable (a
    line of two fields whose second field is not UTF-8, or whose second
    field is the marker and whose first is not UTF-8); it has then run
    the stable listing and the nightly listing, in this order, and
    printed nothing. *)
Theorem X1_listing_returns_iff (w : World) (tr0 : trace) :
  (∀ tr snapshot,
     get_installed_targets w tr0 = (tr, Ok snapshot) →
     tr = tr0 ++ [listing_event "stable"; listing_event "nightly"])
  ∧ ((∃ tr snapshot, get_installed_targets w tr0 = (tr, Ok snapshot))
     ↔ listing_scans w tr0 "stable"
       ∧ listing_scans w (tr0 ++ [listing_event "stable"]) "nightly").
Proof.
  rewrite get_installed_targets_unfold. unfold listing_scans, listing_event.
  pose proof (scan_channel_cases w "stable" ∅ tr0) as H1. cbv zeta in H1.
  destruct (w tr0 (Py.str_split (list_command "stable"))) as [[rc1 out1 err1]|].
  2:{ rewrite H1. split; [done|]. split; [by intros (? & ? & ?)|].
      by intros [(? & ? & ? & _) _]. }
  cbn [returncode stdout stderr] in H1. case_decide as Hrc1.
  2:{ rewrite H1. split; [done|]. split; [by intros (? & ? & ?)|].
      intros [(? & ? & [= -> _ _] & _) _]. done. }
  subst rc1. destruct (existsb undecodable (Py.splitlines out1)) eqn:Eu1.
  { rewrite H1. split; [done|]. split; [by intros (? & ? & ?)|].
    intros [(? & ? & [= <- _] & Hu) _]. congruence. }
  destruct H1 as [inst1 ->].
  pose proof (scan_channel_cases w "nightly" inst1
                (tr0 ++ [RunCaptured (Py.str_split (list_command "stable"))])) as H2.
  cbv zeta in H2.
  destruct (w (tr0 ++ [RunCaptured (Py.str_split (list_command "stable"))])
              (Py.str_split (list_command "nightly"))) as [[rc2 out2 err2]|].
  2:{ rewrite H2. split; [done|]. split; [by intros (? & ? & ?)|].
      by intros [_ (? & ? & ? & _)]. }
  cbn [returncode stdout stderr] in H2. case_decide as Hrc2.
  2:{ rewrite H2. split; [done|]. split; [by intros (? & ? & ?)|].
      intros [_ (? & ? & [= -> _ _] & _)]. done. }
  subst rc2. destruct (existsb undecodable (Py.splitlines out2)) eqn:Eu2.
  { rewrite H2. split; [done|]. split; [by intros (? & ? & ?)|].
    intros [_ (? & ? & [= <- _] & Hu)]. congruence. }
  destruct H2 as [inst2 ->]. split.
  - intros tr snapshot [= <- _]. by rewrite <-app_assoc.
  - split; [|eauto]. intros _. split; eauto.
Qed.

Lemma X1_listing_returns_iff_witness :
  ∃ tr snapshot,
    get_installed_targets (calm_world sample_listing) [] = (tr, Ok snapshot).
Proof.
  apply (proj2 (X1_listing_returns_iff (calm_world sample_listing) [])).
  split; exists sample_listing, EmptyString; split; [reflexivity|by vm_compute..].
Defined.

(** How the listing phase can fail: at one listing command, everything
    before it having succeeded. *)
Lemma listing_abort_shape w tr why :
  get_installed_targets w [] = (tr, Abort why) →
  ∃ pre a,
    runs_ok w pre ∧
    ((why = Raised OSError ∧ w pre a = None ∧ tr = pre ++ [RunCaptured a])
     ∨ (why = SysExit 1
        ∧ ∃ cp, w pre a = Some cp ∧ returncode cp ≠ 0
                ∧ tr = (pre ++ [RunCaptured a]) ++ [PrintBytes (stderr cp)])
     ∨ (why = Raised UnicodeDecodeError ∧ runs_ok w tr)).
Proof.
  rewrite get_installed_targets_unfold.
  destruct (scan_channel w "stable" ∅ []) as [tr1 [inst1|why1]] eqn:E1.
  - apply scan_channel_inv in E1 as (out1 & err1 & s1 & Hw1 & -> & _).
    assert (runs_ok w ([] ++ [RunCaptured (Py.str_split (list_command "stable"))]))
      as Hok1.
    { apply runs_ok_snoc. split; [apply runs_ok_nil|]. simpl. by rewrite Hw1. }
    destruct (scan_channel w "nightly" inst1 _) as [tr2 [inst2|why2]] eqn:E2; [done|].
    intros [= <- <-]. apply scan_channel_inv in E2.
    eexists _, _. split; [exact Hok1|].
    destruct E2 as [(-> & Hw2 & ->)|[(-> & cp & Hw2 & Hrc & ->)|(-> & -> & Hw2)]].
    + by left.
    + right; left. split; [done|]. exists cp. split_and!; [done..|].
      by rewrite <-app_assoc.
    + right; right. split; [done|]. apply runs_ok_snoc. by split.
  - intros [= <- <-]. apply scan_channel_inv in E1.
    eexists _, _. split; [apply runs_ok_nil|].
    destruct E1 as [(-> & Hw1 & ->)|[(-> & cp & Hw1 & Hrc & ->)|(-> & -> & Hw1)]].
    + by left.
    + right; left. split; [done|]. by exists cp.
    + right; right. split; [done|]. apply runs_ok_snoc. split; [apply runs_ok_nil|done].
Qed.

(** ** Failures of the listing commands, and programs that do not start *)

Lemma listing_failure_position w sys_platform argv tr r h a rest :
  run w sys_platform argv = (tr, r) →
  tr = h ++ RunCaptured a :: rest →
  returncode <$> w h a ≠ Some 0 →
  Forall query_event tr
  ∧ ((w h a = None ∧ rest = [] ∧ r = Abort (Raised OSError))
     ∨ (∃ cp, w h a = Some cp ∧ rest = [PrintBytes (stderr cp)]
              ∧ r = Abort (SysExit 1))).
Proof.
  intros Hrun%run_has_shape Htr Hbad.
  assert (∀ t rest', runs_ok w t → t = h ++ RunCaptured a :: rest' → False) as Hno.
  { intros t rest' Hok ->. apply Hbad, (Hok h (RunCaptured a) rest' eq_refl). }
  destruct Hrun as [tr why Hq|t0 snapshot done why Hq Hp Hs|t0 snapshot tr r Hq Hok Hf].
  - split; [by eapply listing_events|].
    apply listing_abort_shape in Hq
      as (pre & a' & Hpre & [(-> & Hw & Heq)|[(-> & cp & Hw & Hrc & Heq)|(-> & Hok)]]).
    + rewrite Heq in Htr. destruct rest as [|x rest _] using rev_ind.
      * apply app_inj_tail in Htr as [-> [= ->]]. by left.
      * rewrite app_comm_cons, app_assoc in Htr.
        apply app_inj_tail in Htr as [-> _]. by destruct (Hno _ _ Hpre eq_refl).
    + rewrite Heq in Htr. destruct rest as [|x rest _] using rev_ind.
      { by apply app_inj_tail in Htr as [_ ?]. }
      rewrite app_comm_cons, app_assoc in Htr. apply app_inj_tail in Htr as [Htr <-].
      destruct rest as [|y rest _] using rev_ind.
      * apply app_inj_tail in Htr as [-> [= ->]]. right. by exists cp.
      * rewrite app_comm_cons, app_assoc in Htr.
        apply app_inj_tail in Htr as [-> _]. by destruct (Hno _ _ Hpre eq_refl).
    + by destruct (Hno _ _ Hok Htr).
  - destruct Hs as (pre & a' & Hpre & Hok & _). rewrite Hpre in Htr.
    destruct rest as [|x rest _] using rev_ind.
    + by apply app_inj_tail in Htr as [_ ?].
    + rewrite app_comm_cons, app_assoc in Htr.
      apply app_inj_tail in Htr as [-> _]. by destruct (Hno _ _ Hok eq_refl).
  - apply (finish_inv w) in Hf as [Hok' _]; [|done].
    by destruct (Hno _ _ Hok' Htr).
Qed.

(** X2. If a listing command of a run exits with a non-zero code, the
    run prints the error stream it captured from that command and exits
    with status 1; that print is the last event, and no install or
    check process is started in the run. *)
Theorem X2_listing_failure_is_fatal (w : World) (sys_platform : string)
    (argv : list string) (tr : trace) (r : res unit)
    (h : trace) (a : list string) (rest : trace) (cp : CompletedProcess) :
  run w sys_platform argv = (tr, r) →
  tr = h ++ RunCaptured a :: rest →
  w h a = Some cp →
  returncode cp ≠ 0 →
  rest = [PrintBytes (stderr cp)]
  ∧ r = Abort (SysExit 1)
  ∧ ∀ a', Run a' ∉ tr.
Proof.
  intros Hrun Htr Hw Hrc.
  destruct (listing_failure_position _ _ _ _ _ _ _ _ Hrun Htr) as [Hq Hr].
  { rewrite Hw. simpl. congruence. }
  destruct Hr as [(Hnone & _)|(cp' & Hw' & -> & ->)]; [congruence|].
  rewrite Hw in Hw'. injection Hw' as <-.
  split_and!; [done..|]. intros a'. by apply query_no_run.
Qed.

Lemma X2_listing_failure_is_fatal_witness :
  run rustup_fails_world "linux" ["check.py"; "linux"]
  = ([] ++ RunCaptured ["rustup"; "+stable"; "target"; "list"]
        :: [PrintBytes "error: no such toolchain"],
     Abort (SysExit 1))
  ∧ ([PrintBytes "error: no such toolchain"]
     = [PrintBytes (stderr (Completed 1 EmptyString "error: no such toolchain"))]
     ∧ Abort (SysExit 1) = @Abort unit (SysExit 1)
     ∧ ∀ a', Run a' ∉ [] ++ RunCaptured ["rustup"; "+stable"; "target"; "list"]
                            :: [PrintBytes "error: no such toolchain"]).
Proof.
  split; [by vm_compute|].
  apply (X2_listing_failure_is_fatal rustup_fails_world "linux"
           ["check.py"; "linux"]
           ([] ++ RunCaptured ["rustup"; "+stable"; "target"; "list"]
               :: [PrintBytes "error: no such toolchain"])
           (Abort (SysExit 1)) []
           ["rustup"; "+stable"; "target"; "list"]
           [PrintBytes "error: no such toolchain"]
           (Completed 1 EmptyString "error: no such toolchain")).
  - vm_compute. reflexivity.
  - reflexivity.
  - reflexivity.
  - simpl. lia.
Defined.

(** X3. If a program of the run cannot be started ([subprocess.run]
    raises), be it a listing, an install or a check, the exception is
    not caught: that attempt is the last event of the run, which dies
    with it. *)
Theorem X3_unstartable_program_ends_the_run (w : World) (sys_platform : string)
    (argv : list string) (tr : trace) (r : res unit)
    (h : trace) (e : event) (a : list string) (rest : trace) :
  run w sys_platform argv = (tr, r) →
  tr = h ++ e :: rest →
  e = Run a ∨ e = RunCaptured a →
  w h a = None →
  rest = [] ∧ r = Abort (Raised OSError) ∧ exit_status r = 1.
Proof.
  intros Hrun Htr [-> | ->] Hw.
  - destruct (failure_is_last _ _ _ _ _ _ _ _ Hrun Htr) as [-> Hr].
    { by rewrite Hw. }
    destruct Hr as [(cp & Hw' & _)|[_ ->]]; [congruence|done].
  - destruct (listing_failure_position _ _ _ _ _ _ _ _ Hrun Htr) as [_ Hr].
    { by rewrite Hw. }
    destruct Hr as [(_ & -> & ->)|(cp & Hw' & _)]; [done|congruence].
Qed.

Lemma X3_unstartable_program_ends_the_run_witness :
  run (no_cargo_world sample_listing) "linux" ["check.py"; "linux"]
  = ((listings_taken ++ [Print (blue check_gnu)]) ++ Run check_gnu_argv :: [],
     Abort (Raised OSError))
  ∧ (@nil event = [] ∧ Abort (Raised OSError) = @Abort unit (Raised OSError)
     ∧ exit_status (Abort (Raised OSError)) = 1).
Proof.
  split; [by vm_compute|].
  apply (X3_unstartable_program_ends_the_run (no_cargo_world sample_listing)
           "linux" ["check.py"; "linux"]
           ((listings_taken ++ [Print (blue check_gnu)]) ++ Run check_gnu_argv :: [])
           (Abort (Raised OSError))
           (listings_taken ++ [Print (blue check_gnu)]) (Run check_gnu_argv)
           check_gnu_argv []).
  - vm_compute. reflexivity.
  - reflexivity.
  - by left.
  - reflexivity.
Defined.

(** ** Fields and lines of a text *)

Lemma all_chars_app p s1 s2 :
  all_chars p (s1 +:+ s2) = all_chars p s1 && all_chars p s2.
Proof.
  induction s1 as [|c s1 IH]; [done|]. simpl. by rewrite IH, andb_assoc.
Qed.

Lemma all_chars_snoc p cur c :
  all_chars p cur = true → p c = true →
  all_chars p (cur +:+ String c EmptyString) = true.
Proof. intros Hcur Hc. rewrite all_chars_app, Hcur. simpl. by rewrite Hc. Qed.

Lemma flush_all (P : string → Prop) cur :
  P cur → Forall P (Py.flush cur).
Proof. intros H. destruct cur; repeat constructor. done. Qed.

(** The fields of a text are made of its characters. *)
Lemma fields_all p sp s cur :
  all_chars p s = true → all_chars p cur = true →
  Forall (λ f, all_chars p f = true) (Py.fields sp s cur).
Proof.
  revert cur. induction s as [|c s IH]; intros cur Hs Hcur; simpl.
  { by apply flush_all. }
  simpl in Hs. apply andb_prop in Hs as [Hc Hs]. destruct (sp c).
  - apply Forall_app. split; [by apply flush_all|]. by apply IH.
  - apply IH; [done|]. by apply all_chars_snoc.
Qed.

(** A field is not empty and holds no white space. *)
Lemma fields_words sp s cur :
  spaceless sp cur = true →
  Forall (λ f, f ≠ EmptyString ∧ spaceless sp f = true) (Py.fields sp s cur).
Proof.
  assert (∀ cur, spaceless sp cur = true →
            Forall (λ f, f ≠ EmptyString ∧ spaceless sp f = true) (Py.flush cur))
    as Hflush.
  { intros [|c cur'] H; repeat constructor; done. }
  revert cur. induction s as [|c s IH]; intros cur Hcur; simpl; [by apply Hflush|].
  destruct (sp c) eqn:Ec.
  - apply Forall_app. split; [by apply Hflush|]. by apply IH.
  - apply IH. apply all_chars_snoc; [done|]. by rewrite Ec.
Qed.

Lemma lines_cons c b cur :
  Py.lines (String c b) cur =
  if (Py.code c =? 10)%N then cur :: Py.lines b EmptyString
  else if (Py.code c =? 13)%N then
    cur :: match b with
           | String c' b'' =>
               if (Py.code c' =? 10)%N then Py.lines b'' EmptyString
               else Py.lines b EmptyString
           | EmptyString => Py.lines b EmptyString
           end
  else Py.lines b (cur +:+ String c EmptyString).
Proof. reflexivity. Qed.

(** The lines of a text are made of its characters. *)
Lemma lines_all p b :
  (∀ cur, all_chars p b = true → all_chars p cur = true →
          Forall (λ l, all_chars p l = true) (Py.lines b cur))
  ∧ (∀ c cur, all_chars p (String c b) = true → all_chars p cur = true →
              Forall (λ l, all_chars p l = true) (Py.lines (String c b) cur)).
Proof.
  induction b as [|c' b [IH1 IH2]].
  - split.
    + intros cur _ Hcur. by apply flush_all.
    + intros c cur Hc Hcur. simpl in *. apply andb_prop in Hc as [Hc _].
      repeat case_match; repeat constructor; try done;
        apply flush_all; (done || by apply all_chars_snoc).
  - split; [intros cur; apply IH2|].
    intros c cur Hc Hcur. cbn [all_chars] in Hc.
    apply andb_prop in Hc as [Hc Hb].
    assert (all_chars p b = true) as Hb'.
    { simpl in Hb. by apply andb_prop in Hb as [_ ?]. }
    rewrite lines_cons. destruct (Py.code c =? 10)%N.
    { constructor; [done|]. by apply IH2. }
    destruct (Py.code c =? 13)%N.
    + constructor; [done|]. destruct (Py.code c' =? 10)%N.
      * by apply IH1.
      * by apply IH2.
    + apply IH2; [done|]. by apply all_chars_snoc.
Qed.

Lemma splitlines_all p b :
  all_chars p b = true → Forall (λ l, all_chars p l = true) (Py.splitlines b).
Proof. intros Hb. by apply (lines_all p b). Qed.

(** 7-bit text is well-formed UTF-8. *)
Lemma utf8_valid_ascii b : ascii_text b = true → Py.utf8_valid b = true.
Proof.
  unfold ascii_text. induction b as [|c b IH]; [done|].
  cbn [all_chars Py.utf8_valid]. intros [Hc Hb]%andb_prop.
  unfold is_ascii in Hc. rewrite Hc. by apply IH.
Qed.

Lemma ascii_line_decodes line : ascii_text line = true → undecodable line = false.
Proof.
  intros Hl. unfold undecodable.
  pose proof (fields_all is_ascii Py.bytes_isspace line EmptyString Hl eq_refl) as Hf.
  change (Py.fields Py.bytes_isspace line EmptyString) with (Py.bytes_split line) in Hf.
  destruct (Py.bytes_split line) as [|f0 [|f1 [|f2 fs]]]; try done.
  apply Forall_cons in Hf as [H0 [H1 _]%Forall_cons].
  rewrite (utf8_valid_ascii f0 H0), (utf8_valid_ascii f1 H1).
  cbn [negb orb]. by rewrite andb_false_r.
Qed.

(** ** When the listings scan, and what the snapshot holds *)

Lemma listing_scans_returns w tr0 :
  listing_scans w tr0 "stable" →
  listing_scans w (tr0 ++ [listing_event "stable"]) "nightly" →
  ∃ snapshot,
    get_installed_targets w tr0
    = (tr0 ++ [listing_event "stable"; listing_event "nightly"], Ok snapshot).
Proof.
  intros (out1 & err1 & Hw1 & Hu1) (out2 & err2 & Hw2 & Hu2).
  rewrite get_installed_targets_unfold. unfold listing_event in *.
  pose proof (scan_channel_cases w "stable" ∅ tr0) as H1. cbv zeta in H1.
  rewrite Hw1 in H1. cbn [returncode stdout] in H1.
  rewrite decide_True, Hu1 in H1 by done. destruct H1 as [inst1 ->].
  pose proof (scan_channel_cases w "nightly" inst1
                (tr0 ++ [RunCaptured (Py.str_split (list_command "stable"))])) as H2.
  cbv zeta in H2. rewrite Hw2 in H2. cbn [returncode stdout] in H2.
  rewrite decide_True, Hu2 in H2 by done. destruct H2 as [inst2 ->].
  exists inst2. by rewrite <-app_assoc.
Qed.

Lemma ascii_text_scans out :
  ascii_text out = true → existsb undecodable (Py.splitlines out) = false.
Proof.
  intros Hout%(splitlines_all is_ascii).
  induction Hout as [|l ls Hl _ IH]; [done|].
  cbn [existsb]. by rewrite ascii_line_decodes.
Qed.

(** X4. When both listing commands exit with 0 and print 7-bit text,
    the listing phase does not raise: it returns a snapshot, having run
    the two listings and nothing else. *)
Theorem X4_ascii_listings_scan (w : World) (tr0 : trace)
    (out_s err_s out_n err_n : string) :
  w tr0 (Py.str_split (list_command "stable")) = Some (Completed 0 out_s err_s) →
  w (tr0 ++ [listing_event "stable"]) (Py.str_split (list_command "nightly"))
    = Some (Completed 0 out_n err_n) →
  ascii_text out_s = true →
  ascii_text out_n = true →
  ∃ snapshot,
    get_installed_targets w tr0
    = (tr0 ++ [listing_event "stable"; listing_event "nightly"], Ok snapshot).
Proof.
  intros Hs Hn Has Han. apply listing_scans_returns.
  - exists out_s, err_s. split; [done|]. by apply ascii_text_scans.
  - exists out_n, err_n. split; [done|]. by apply ascii_text_scans.
Qed.

Lemma X4_ascii_listings_scan_witness :
  ∃ snapshot,
    get_installed_targets (calm_world sample_listing) []
    = ([] ++ [listing_event "stable"; listing_event "nightly"], Ok snapshot).
Proof.
  apply (X4_ascii_listings_scan (calm_world sample_listing) []
           sample_listing EmptyString sample_listing EmptyString);
    (reflexivity || by vm_compute).
Defined.

Section snapshot_members.
Context (channel : string).

Lemma scan_line_members line (installed : gmap string (gset string)) tr tr' installed' :
  members_ok installed →
  scan_line channel line installed tr = (tr', Ok installed') →
  members_ok installed'.
Proof.
  intros Hok. unfold scan_line.
  pose proof (fields_words Py.bytes_isspace line EmptyString eq_refl) as Hf.
  change (Py.fields Py.bytes_isspace line EmptyString) with (Py.bytes_split line) in Hf.
  destruct (Py.bytes_split line) as [|f0 [|f1 [|f2 fs]]];
    try (by intros [= _ <-]).
  apply Forall_cons in Hf as [[Hne Hsp] _].
  rewrite bind_unfold. unfold decode_utf8.
  destruct (Py.utf8_valid f1); [|done]. cbn [mret M_ret].
  case_decide; [|by intros [= _ <-]].
  rewrite bind_unfold. destruct (Py.utf8_valid f0) eqn:Hv; [|done].
  cbn [mret M_ret]. rewrite bind_unfold. unfold getitem.
  destruct (installed !! channel) as [s|] eqn:Hs; [|done].
  cbn [mret M_ret]. intros [= _ <-] c s' t Hc Ht.
  destruct (decide (c = channel)) as [->|Hne'].
  - rewrite lookup_insert_eq in Hc. injection Hc as <-.
    apply elem_of_union in Ht as [Ht|Ht]; [by eapply Hok|].
    apply elem_of_singleton in Ht as ->. done.
  - rewrite lookup_insert_ne in Hc by done. by eapply Hok.
Qed.

Lemma scan_lines_members ls (installed : gmap string (gset string)) tr tr' installed' :
  members_ok installed →
  for_fold ls (scan_line channel) installed tr = (tr', Ok installed') →
  members_ok installed'.
Proof.
  revert installed tr. induction ls as [|l ls IH]; intros installed tr Hok.
  { by intros [= _ <-]. }
  cbn [for_fold]. rewrite bind_unfold.
  destruct (scan_line channel l installed tr) as [tr1 [inst1|?]] eqn:E1; [|done].
  apply IH. by eapply scan_line_members.
Qed.

Lemma scan_channel_members w (installed : gmap string (gset string)) tr tr' installed' :
  members_ok installed →
  scan_channel w channel installed tr = (tr', Ok installed') →
  members_ok installed'.
Proof.
  intros Hok. unfold scan_channel. cbv zeta. rewrite bind_unfold.
  destruct (subprocess_run w true _ tr) as [tr1 [cp|?]]; [|done].
  case_decide; [by rewrite bind_unfold|].
  apply scan_lines_members. intros c s t Hc Ht.
  destruct (decide (c = channel)) as [->|Hne].
  - rewrite lookup_insert_eq in Hc. injection Hc as <-. by apply elem_of_empty in Ht.
  - rewrite lookup_insert_ne in Hc by done. by eapply Hok.
Qed.

End snapshot_members.

(** X5. The snapshot returned by the listing phase has exactly the two
    keys "stable" and "nightly", so that looking a catalog channel up
    in it does not fail; and every triple in it is field-like: not
    empty, without white space, well-formed UTF-8. *)
Theorem X5_snapshot_shape (w : World) (tr0 tr : trace)
    (snapshot : gmap string (gset string)) :
  get_installed_targets w tr0 = (tr, Ok snapshot) →
  dom snapshot = {[ "stable"; "nightly" ]}
  ∧ (∀ sys_platform (e : entry),
       e ∈ dict_values (OSS sys_platform) → is_Some (snapshot !! e.1))
  ∧ ∀ channel t, t ∈ installed_for snapshot channel → field_like t.
Proof.
  rewrite get_installed_targets_unfold.
  destruct (scan_channel w "stable" ∅ tr0) as [tr1 [inst1|?]] eqn:E1; [|done].
  destruct (scan_channel w "nightly" inst1 tr1) as [tr2 [inst2|?]] eqn:E2; [|done].
  intros [= _ <-].
  pose proof (scan_channel_members "stable" w ∅ _ _ _ ltac:(by intros c s t ?) E1) as Hm1.
  pose proof (scan_channel_members "nightly" w _ _ _ _ Hm1 E2) as Hm2.
  apply scan_channel_inv in E1 as (_ & _ & s1 & _ & _ & Hs1 & _ & Ho1).
  apply scan_channel_inv in E2 as (_ & _ & s2 & _ & _ & Hs2 & _ & Ho2).
  assert (dom inst2 = ({[ "stable"; "nightly" ]} : gset string)) as Hdom.
  { apply set_eq. intros c. rewrite elem_of_dom.
    destruct (decide (c = "nightly")) as [->|Hn]; [rewrite Hs2; set_solver|].
    rewrite Ho2 by done.
    destruct (decide (c = "stable")) as [->|Hs]; [rewrite Hs1; set_solver|].
    rewrite Ho1 by done. rewrite lookup_empty. split; [by intros []|set_solver]. }
  split_and!; [done| |].
  - intros sys_platform e He. apply elem_of_dom. rewrite Hdom.
    pose proof (OSS_channels sys_platform) as Hch.
    apply (proj1 (Forall_forall _ _) Hch) in He as [-> | ->]; set_solver.
  - intros channel t. unfold installed_for.
    destruct (inst2 !! channel) as [s|] eqn:Hc; [|by intros ?%elem_of_empty].
    intros Ht. by eapply Hm2.
Qed.

Lemma X5_snapshot_shape_witness :
  field_like "x86_64-unknown-linux-gnu".
Proof.
  destruct (X5_snapshot_shape (calm_world sample_listing) []
              (get_installed_targets (calm_world sample_listing) []).1
              (default ∅
                 (match (get_installed_targets (calm_world sample_listing) []).2
                  with Ok s => Some s | Abort _ => None end))
              ltac:(vm_compute; reflexivity)) as (_ & _ & H).
  apply (H "stable"). compute_done.
Defined.

(** ** How a run can end *)

Lemma script_no_first_argument (snapshot : gmap string (gset string)) (oss : catalog) argv :
  (script snapshot oss argv).2 = NoFirstArgument → argv = [].
Proof.
  unfold script. case_decide as Hlen; [done|].
  destruct (selection oss (drop 1 argv)) as [es [os|]]; [done|].
  destruct argv as [|prog [|first rest]]; done.
Qed.

(** X6. The only exceptions a run can die with are the [OSError] of a
    program that does not start, the [UnicodeDecodeError] of a listing
    line, and, when [sys.argv] is empty, the [IndexError] of
    [sys.argv[1]]: no dict lookup of the script fails.  With an empty
    [sys.argv] the run takes the branch of the explicit arguments,
    starts no install and no check, and, once the listings are taken,
    dies with that [IndexError]. *)
Theorem X6_uncaught_exceptions (w : World) (sys_platform : string)
    (argv : list string) (tr : trace) (r : res unit) :
  run w sys_platform argv = (tr, r) →
  (∀ e, r = Abort (Raised e) →
        e = OSError ∨ e = UnicodeDecodeError ∨ (e = IndexError ∧ argv = []))
  ∧ (argv = [] →
     (∀ a, Run a ∉ tr)
     ∧ exit_status r = 1
     ∧ ∀ t0 snapshot,
         get_installed_targets w [] = (t0, Ok snapshot) →
         tr = t0 ∧ r = Abort (Raised IndexError)).
Proof.
  intros Hrun. split.
  - intros e ->. apply run_has_shape in Hrun.
    inversion Hrun as
      [tr' why' Hq|t0 snapshot done why' Hq Hp Hs|t0 snapshot tr' r' Hq Hok Hf]; subst.
    + apply listing_abort_shape in Hq as (pre & a & _ & [(? & _)|[(? & _)|(? & _)]]);
        simplify_eq; auto.
    + destruct Hs as (pre & a & _ & _ & [(cp & _ & _ & ?)|[_ ?]]); simplify_eq; auto.
    + apply (finish_inv w) in Hf as [_ Hf]; [|done].
      destruct (script snapshot (OSS sys_platform) argv).2 eqn:Hend;
        destruct Hf as [_ Hf]; simplify_eq.
      right; right. split; [done|]. by eapply script_no_first_argument.
  - intros ->. pose proof (run_has_shape _ _ _ _ _ Hrun) as Hs.
    assert (∀ snapshot, script snapshot (OSS sys_platform) [] = ([], NoFirstArgument))
      as Hscript by done.
    inversion Hs as
      [tr' why' Hq|t0 snapshot done why' Hq Hp Hst|t0 snapshot tr' r' Hq Hok Hf]; subst.
    + split_and!.
      * intros a. by apply query_no_run, (listing_events w tr (Abort why')).
      * by eapply abort_status.
      * intros t0 snapshot Hq'. congruence.
    + rewrite Hscript in Hp. apply prefix_nil_inv in Hp as ->.
      destruct Hst as (pre & a & Hpre & _). rewrite app_nil_r in Hpre.
      apply listing_events in Hq. rewrite Hpre in Hq.
      apply Forall_app in Hq as [_ Hq]. by apply Forall_cons in Hq as [? _].
    + rewrite Hscript in Hf. cbn in Hf. injection Hf as <- <-.
      rewrite app_nil_r. split_and!.
      * intros a. by apply query_no_run, (listing_events w t0 (Ok snapshot)).
      * done.
      * intros t0' snapshot' Hq'. rewrite Hq in Hq'. by injection Hq' as <- _.
Qed.

Lemma X6_uncaught_exceptions_witness :
  run (calm_world sample_listing) "linux" []
  = (listings_taken, Abort (Raised IndexError)).
Proof.
  destruct (X6_uncaught_exceptions (calm_world sample_listing) "linux" [] _ _
              (surjective_pairing _)) as [_ H].
  destruct (H eq_refl) as (_ & _ & H').
  destruct (H' listings_taken
              (default ∅
                 (match (get_installed_targets (calm_world sample_listing) []).2
                  with Ok s => Some s | Abort _ => None end))
              ltac:(vm_compute; reflexivity)) as [H1 H2].
  rewrite (surjective_pairing (run _ _ _)). by rewrite H1, H2.
Defined.

(** X7. The exit status of a run is 0 or 1, whatever the commands exit
    with; it is 0 exactly when [main] returns. *)
Theorem X7_exit_status_range (w : World) (sys_platform : string)
    (argv : list string) :
  (exit_status (run w sys_platform argv).2 = 0
   ∨ exit_status (run w sys_platform argv).2 = 1)
  ∧ (exit_status (run w sys_platform argv).2 = 0
     ↔ (run w sys_platform argv).2 = Ok ()).
Proof.
  destruct (run w sys_platform argv) as [tr r] eqn:Hrun. cbn [snd].
  destruct r as [[]|why]; [split; [by left|done]|].
  rewrite (abort_status _ _ _ _ _ Hrun). split; [by right|]. by split.
Qed.

(** ** The text of the commands *)

Lemma string_app_assoc (a b c : string) : (a +:+ b) +:+ c = a +:+ (b +:+ c).
Proof.
  induction a as [|x a IH]; [done|].
  change (String x ((a +:+ b) +:+ c) = String x (a +:+ (b +:+ c))). by rewrite IH.
Qed.

Lemma string_app_nil_r (a : string) : a +:+ EmptyString = a.
Proof.
  induction a as [|x a IH]; [done|].
  change (String x (a +:+ EmptyString) = String x a). by rewrite IH.
Qed.

Lemma string_app_length (a b : string) :
  String.length (a +:+ b) = (String.length a + String.length b)%nat.
Proof.
  induction a as [|x a IH]; [done|].
  change (S (String.length (a +:+ b)) = S (String.length a + String.length b)).
  by rewrite IH.
Qed.

Lemma string_app_inv_tail (a b k : string) : a +:+ k = b +:+ k → a = b.
Proof.
  revert b. induction a as [|x a IH]; intros [|y b] Heq; [done| | |].
  - apply (f_equal String.length) in Heq.
    rewrite !string_app_length in Heq. simpl in Heq. lia.
  - apply (f_equal String.length) in Heq.
    rewrite !string_app_length in Heq. simpl in Heq. lia.
  - change (String x (a +:+ k) = String y (b +:+ k)) in Heq.
    injection Heq as -> Heq. f_equal. by apply IH.
Qed.

(** X8. [blue] is injective: the echo of a command determines the
    command. *)
Theorem X8_blue_inj (s1 s2 : string) : blue s1 = blue s2 → s1 = s2.
Proof.
  unfold blue. intros Heq. apply (inj (String.append _)) in Heq.
  apply (inj (String.append _)) in Heq. by apply string_app_inv_tail in Heq.
Qed.

Lemma X8_blue_inj_witness : check_gnu = check_gnu.
Proof. apply (X8_blue_inj check_gnu check_gnu). reflexivity. Defined.

(** A text without white space goes whole into the field under
    construction. *)
Lemma fields_word sp s rest cur :
  spaceless sp s = true →
  Py.fields sp (s +:+ rest) cur = Py.fields sp rest (cur +:+ s).
Proof.
  revert cur. induction s as [|c s IH]; intros cur Hs.
  { by rewrite string_app_nil_r. }
  cbn [spaceless all_chars] in Hs. apply andb_prop in Hs as [Hc Hs].
  apply negb_true_iff in Hc.
  change (String c s +:+ rest) with (String c (s +:+ rest)).
  cbn [Py.fields]. rewrite Hc.
  rewrite IH by done. f_equal. by rewrite string_app_assoc.
Qed.

Lemma fields_last_word sp s cur :
  spaceless sp s = true → Py.fields sp s cur = Py.flush (cur +:+ s).
Proof.
  revert cur. induction s as [|c s IH]; intros cur Hs.
  { by rewrite string_app_nil_r. }
  cbn [spaceless all_chars] in Hs. apply andb_prop in Hs as [Hc Hs].
  apply negb_true_iff in Hc. cbn [Py.fields]. rewrite Hc.
  rewrite IH by done. f_equal. by rewrite string_app_assoc.
Qed.

Lemma fields_word_space s rest :
  s ≠ EmptyString → spaceless Py.str_isspace s = true →
  Py.fields Py.str_isspace (s +:+ String " " rest) EmptyString
  = s :: Py.fields Py.str_isspace rest EmptyString.
Proof.
  intros Hne Hs. rewrite fields_word by done. cbn [Py.fields].
  change (Py.str_isspace " ") with true. cbv iota.
  change (EmptyString +:+ s) with s. by destruct s.
Qed.

Lemma fields_only_word s :
  s ≠ EmptyString → spaceless Py.str_isspace s = true →
  Py.fields Py.str_isspace s EmptyString = [s].
Proof.
  intros Hne Hs. rewrite fields_last_word by done.
  change (EmptyString +:+ s) with s. by destruct s.
Qed.

Lemma spaceless_app sp s1 s2 :
  spaceless sp s1 = true → spaceless sp s2 = true →
  spaceless sp (s1 +:+ s2) = true.
Proof. unfold spaceless. intros H1 H2. by rewrite all_chars_app, H1, H2. Qed.

(** X9. For a channel and a triple without white space (the triple not
    empty), the commands that the script builds split into the argument
    vectors one expects: the program, its sub-commands, and the channel
    and triple each inside one argument. *)
Theorem X9_command_fields (channel triple : string) :
  spaceless Py.str_isspace channel = true →
  spaceless Py.str_isspace triple = true →
  triple ≠ EmptyString →
  Py.str_split (list_command channel)
  = ["rustup"; "+" +:+ channel; "target"; "list"]
  ∧ Py.str_split (install_command channel triple)
    = ["rustup"; "+" +:+ channel; "target"; "install"; triple]
  ∧ Py.str_split (check_command channel triple)
    = ["cargo"; "+" +:+ channel; "check"; "--target=" +:+ triple]
  ∧ Py.str_split (no_default_command triple)
    = ["cargo"; "check"; "--target=" +:+ triple; "--no-default-features"].
Proof.
  intros Hc Ht Hne.
  assert (spaceless Py.str_isspace ("+" +:+ channel) = true) as Hc'
    by by apply spaceless_app.
  assert (spaceless Py.str_isspace ("--target=" +:+ triple) = true) as Ht'
    by by apply spaceless_app.
  unfold Py.str_split. split_and!.
  - change (list_command channel)
      with ("rustup" +:+ String " " (("+" +:+ channel)
             +:+ String " " ("target" +:+ String " " "list"))).
    by rewrite !fields_word_space, fields_only_word.
  - change (install_command channel triple)
      with ("rustup" +:+ String " " (("+" +:+ channel)
             +:+ String " " ("target" +:+ String " " ("install"
             +:+ String " " triple)))).
    by rewrite !fields_word_space, fields_only_word.
  - change (check_command channel triple)
      with ("cargo" +:+ String " " (("+" +:+ channel)
             +:+ String " " ("check" +:+ String " " ("--target=" +:+ triple)))).
    by rewrite !fields_word_space, fields_only_word.
  - change (no_default_command triple)
      with ("cargo" +:+ String " " ("check" +:+ String " " (("--target=" +:+ triple)
             +:+ String " " "--no-default-features"))).
    by rewrite !fields_word_space, fields_only_word.
Qed.

Lemma X9_command_fields_witness :
  Py.str_split (install_command "nightly" "x86_64-unknown-redox")
  = ["rustup"; "+" +:+ "nightly"; "target"; "install"; "x86_64-unknown-redox"].
Proof.
  apply (X9_command_fields "nightly" "x86_64-unknown-redox"); by vm_compute.
Defined.

(** ** The catalog on every host *)

Lemma dict_get_set_eq {V} (d : list (string * V)) k v :
  dict_get (dict_set d k v) k = Some v.
Proof.
  induction d as [|[k' v'] d IH]; simpl.
  - by rewrite decide_True.
  - case_decide; simpl; [by rewrite decide_True|]. by rewrite decide_False.
Qed.

Lemma dict_get_set_ne {V} (d : list (string * V)) k k' v :
  k' ≠ k → dict_get (dict_set d k v) k' = dict_get d k'.
Proof.
  intros Hne. induction d as [|[k0 v0] d IH]; simpl.
  - by rewrite decide_False.
  - case_decide as Hk; simpl.
    + subst k0. by rewrite !decide_False.
    + by rewrite IH.
Qed.

Lemma dict_keys_set_new {V} (d : list (string * V)) k v :
  dict_get d k = None → dict_keys (dict_set d k v) = dict_keys d ++ [k].
Proof.
  unfold dict_keys. induction d as [|[k0 v0] d IH]; simpl; [done|].
  case_decide; [done|]. intros Hd. rewrite fmap_cons. simpl. f_equal. by apply IH.
Qed.

(** X10. The host changes the meaning of no platform name but "ios":
    every other name is looked up as in the static table, "ios" is a
    known name exactly on "darwin" (where it is the last key of the
    catalog), and the keys of the static table keep their order. *)
Theorem X10_host_and_lookup (sys_platform os : string) :
  (os ≠ "ios" → dict_get (OSS sys_platform) os = dict_get OSS_static os)
  ∧ (is_Some (dict_get (OSS sys_platform) "ios") ↔ sys_platform = "darwin")
  ∧ (sys_platform = "darwin" →
     dict_get (OSS sys_platform) "ios" = Some ios_entry
     ∧ dict_keys (OSS sys_platform) = dict_keys OSS_static ++ ["ios"])
  ∧ dict_keys OSS_static `prefix_of` dict_keys (OSS sys_platform).
Proof.
  unfold OSS. case_decide as Hd.
  - split_and!.
    + intros Hne. by apply dict_get_set_ne.
    + by rewrite dict_get_set_eq.
    + intros _. split; [apply dict_get_set_eq|]. by apply dict_keys_set_new.
    + rewrite dict_keys_set_new by done. by eexists.
  - split_and!; [done| |done|done].
    split; [by intros []|done].
Qed.

(** ** What comes first in a run *)

Lemma listing_returns_inv w tr0 tr snapshot :
  get_installed_targets w tr0 = (tr, Ok snapshot) →
  tr = tr0 ++ [listing_event "stable"; listing_event "nightly"]
  ∧ listing_scans w tr0 "stable"
  ∧ listing_scans w (tr0 ++ [listing_event "stable"]) "nightly".
Proof.
  rewrite get_installed_targets_unfold. unfold listing_scans, listing_event.
  pose proof (scan_channel_cases w "stable" ∅ tr0) as H1. cbv zeta in H1.
  destruct (w tr0 (Py.str_split (list_command "stable"))) as [[rc1 out1 err1]|];
    [|by rewrite H1].
  cbn [returncode stdout stderr] in H1. case_decide as Hrc1; [|by rewrite H1].
  subst rc1. destruct (existsb undecodable (Py.splitlines out1)) eqn:Eu1;
    [by rewrite H1|].
  destruct H1 as [inst1 ->].
  pose proof (scan_channel_cases w "nightly" inst1
                (tr0 ++ [RunCaptured (Py.str_split (list_command "stable"))])) as H2.
  cbv zeta in H2.
  destruct (w (tr0 ++ [RunCaptured (Py.str_split (list_command "stable"))])
              (Py.str_split (list_command "nightly"))) as [[rc2 out2 err2]|];
    [|by rewrite H2].
  cbn [returncode stdout stderr] in H2. case_decide as Hrc2; [|by rewrite H2].
  subst rc2. destruct (existsb undecodable (Py.splitlines out2)) eqn:Eu2;
    [by rewrite H2|].
  destruct H2 as [inst2 ->]. intros [= <- _].
  split_and!; [by rewrite <-app_assoc|eauto..].
Qed.

Lemma listing_starts w tr r :
  get_installed_targets w [] = (tr, r) →
  ∃ rest, tr = listing_event "stable" :: rest.
Proof.
  rewrite get_installed_targets_unfold.
  destruct (scan_channel w "stable" ∅ []) as [tr1 r1] eqn:E1.
  assert (∃ rest, tr1 = listing_event "stable" :: rest) as [rest1 ->].
  { apply scan_channel_inv in E1. destruct r1.
    - destruct E1 as (? & ? & ? & _ & -> & _). by eexists.
    - destruct E1 as [(_ & _ & ->)|[(_ & ? & _ & _ & ->)|(_ & -> & _)]]; by eexists. }
  destruct r1 as [inst1|]; [|intros [= <- _]; by eexists].
  destruct (scan_channel w "nightly" inst1 _) as [tr2 r2] eqn:E2.
  assert (∃ rest, tr2 = listing_event "stable" :: rest) as [rest2 ->].
  { apply scan_channel_inv in E2. destruct r2.
    - destruct E2 as (? & ? & ? & _ & -> & _). by eexists.
    - destruct E2 as [(_ & _ & ->)|[(_ & ? & _ & _ & ->)|(_ & -> & _)]]; by eexists. }
  destruct r2; intros [= <- _]; by eexists.
Qed.

(** X11. [main] takes the listings before it looks at its arguments:
    the first event of every run is the stable listing; and a run in
    which anything is echoed, installed, checked or reported about an
    argument has begun with the stable and the nightly listing, both of
    which exited with 0 and scanned. *)
Theorem X11_listings_come_first (w : World) (sys_platform : string)
    (argv : list string) :
  (∃ rest, (run w sys_platform argv).1 = listing_event "stable" :: rest)
  ∧ ((∃ e, e ∈ (run w sys_platform argv).1 ∧ ¬ query_event e) →
     (∃ rest, (run w sys_platform argv).1
              = listing_event "stable" :: listing_event "nightly" :: rest)
     ∧ listing_scans w [] "stable"
     ∧ listing_scans w [listing_event "stable"] "nightly").
Proof.
  destruct (run w sys_platform argv) as [tr r] eqn:Hrun. cbn [fst].
  apply run_has_shape in Hrun.
  destruct Hrun as [tr why Hq|t0 snapshot done why Hq Hp Hs|t0 snapshot tr r Hq Hok Hf].
  - split; [by eapply listing_starts|].
    intros (e & He & Hne). destruct Hne.
    apply listing_events in Hq. by apply (proj1 (Forall_forall _ _) Hq).
  - apply listing_returns_inv in Hq as (-> & H1 & H2).
    split; [by eexists|]. intros _. split; [by eexists|done].
  - apply listing_returns_inv in Hq as (-> & H1 & H2).
    apply (finish_inv w) in Hf as [_ Hf]; [|done].
    assert (∃ rest, tr = listing_event "stable" :: listing_event "nightly" :: rest)
      as [rest ->].
    { destruct (script snapshot (OSS sys_platform) argv).2;
        destruct Hf as [-> _]; by eexists. }
    split; [by eexists|]. intros _. split; [by eexists|done].
Qed.

(** ** Runs that complete *)

(** A run that completes went through its whole script. *)
Lemma completed_run w sys_platform argv tr :
  run w sys_platform argv = (tr, Ok ()) →
  ∃ t0 snapshot,
    get_installed_targets w [] = (t0, Ok snapshot)
    ∧ (script snapshot (OSS sys_platform) argv).2 = Finished
    ∧ tr = t0 ++ ((script snapshot (OSS sys_platform) argv).1 ≫= render)
    ∧ runs_ok w tr.
Proof.
  intros Hrun%run_has_shape.
  inversion Hrun as [| |t0 snapshot tr' r' Hq Hok Hf]; subst.
  exists t0, snapshot. apply (finish_inv w) in Hf as [Hok' Hf]; [|done].
  destruct (script snapshot (OSS sys_platform) argv).2;
    destruct Hf as [-> ?]; done.
Qed.

Lemma entries_without_no_default sys_platform (snapshot : gmap string (gset string))
    (es : list entry) t :
  Forall (λ e, e ∈ dict_values (OSS sys_platform)) es →
  t ∈ linux_triples (OSS sys_platform) →
  Run (Py.str_split (no_default_command t)) ∉ (es ≫= entry_commands snapshot) ≫= render.
Proof.
  intros Hes Ht (c & Hc & Heq)%elem_of_render.
  apply list_elem_of_bind in Hc as (e & Hc & He).
  apply (proj1 (Forall_forall _ _) Hes) in He.
  apply entry_command_cases in Hc as (t' & Ht' & Hc).
  destruct (catalog_entry_reads_back _ _ _ He Ht') as [Hi Hk].
  assert (reads_back (ANoDefault t)) as Hnd.
  { destruct (OSS_reads_back sys_platform) as [_ H].
    by apply (proj1 (Forall_forall _ _) H) in Ht. }
  destruct Hc as [[-> _]| ->].
  - assert (ANoDefault t = AInstall e.1 t') by by apply action_inj. done.
  - assert (ANoDefault t = ACheck e.1 t') by by apply action_inj. done.
Qed.

(** X12. A run without arguments that completes ends, on every host,
    with the no-default-features checks of the two linux triples, in
    this order; none of them is issued before that. *)
Theorem X12_full_run_ends_with_the_pass (w : World) (sys_platform prog : string)
    (tr : trace) :
  run w sys_platform [prog] = (tr, Ok ()) →
  ∃ tr',
    tr = tr' ++ render (no_default_command "x86_64-unknown-linux-gnu")
             ++ render (no_default_command "x86_64-unknown-linux-musl")
    ∧ ∀ t, t ∈ linux_triples (OSS sys_platform) →
           Run (Py.str_split (no_default_command t)) ∉ tr'.
Proof.
  intros (t0 & snapshot & Hq & _ & -> & _)%completed_run.
  unfold script. rewrite decide_True by done. cbn [fst].
  rewrite bind_app, app_assoc. eexists. split.
  - f_equal. unfold no_default_commands.
    by destruct (OSS_linux sys_platform) as [-> _].
  - intros t Ht [Hin|Hin]%elem_of_app.
    + by apply listing_events, query_no_run with (argv := Py.str_split (no_default_command t)) in Hq.
    + assert (Forall (λ e, e ∈ dict_values (OSS sys_platform))
                (dict_values (OSS sys_platform))) as Hall by by apply Forall_forall.
      by apply (entries_without_no_default sys_platform snapshot _ t Hall Ht).
Qed.

Lemma X12_full_run_ends_with_the_pass_witness :
  ∃ tr',
    (run (calm_world sample_listing) "darwin" ["check.py"]).1
    = tr' ++ render (no_default_command "x86_64-unknown-linux-gnu")
          ++ render (no_default_command "x86_64-unknown-linux-musl")
    ∧ ∀ t, t ∈ linux_triples (OSS "darwin") →
           Run (Py.str_split (no_default_command t)) ∉ tr'.
Proof.
  apply (X12_full_run_ends_with_the_pass (calm_world sample_listing) "darwin"
           "check.py"). by vm_compute.
Defined.

Lemma selection_known_checks (oss : catalog) args :
  (selection oss args).2 = None →
  ((selection oss args).1 ≫= λ e : entry,
     t ← e.2; [Run (Py.str_split (check_command e.1 t))])
  = argument_checks oss args.
Proof.
  unfold argument_checks. induction args as [|os args IH]; [done|].
  cbn [selection]. destruct (dict_get oss os) as [e|] eqn:Eg; [|done].
  destruct (selection oss args) as [es bad]. cbn [fst snd] in *. intros ->.
  change ((?x :: ?l) ≫= ?f) with (f x ++ (l ≫= f)).
  cbv beta. rewrite Eg. by rewrite IH.
Qed.

(** X13. A run with explicit arguments that completes has issued the
    checks of its arguments in the order of the arguments: for each
    name in turn the checks of its triples, a name given twice being
    checked twice. *)
Theorem X13_checks_follow_the_arguments (w : World) (sys_platform prog first : string)
    (others : list string) (tr : trace) :
  run w sys_platform (prog :: first :: others) = (tr, Ok ()) →
  filter is_check_event tr
  = argument_checks (OSS sys_platform) (first :: others).
Proof.
  intros (t0 & snapshot & Hq & Hend & -> & _)%completed_run.
  revert Hend. unfold script. rewrite decide_False by done.
  cbn [drop lookup list_lookup].
  pose proof (selection_entries (OSS sys_platform) (first :: others)) as Hes.
  pose proof (selection_known_checks (OSS sys_platform) (first :: others)) as Hchk.
  destruct (selection (OSS sys_platform) (first :: others)) as [es [os|]];
    cbn [fst snd] in *; [done|]. intros _.
  rewrite <-Hchk by done. rewrite bind_app, !filter_app.
  rewrite (filter_checks_query t0) by by eapply listing_events.
  destruct (OSS_reads_back sys_platform) as [Hrb Hl].
  rewrite filter_checks_entries.
  - destruct (Py.contains "linux" first); [|by rewrite app_nil_r].
    unfold no_default_commands. rewrite filter_checks_no_default by done.
    by rewrite app_nil_r.
  - apply Forall_forall. intros e (os & _ & Hg%dict_get_values)%Hes.
    by apply (proj1 (Forall_forall _ _) Hrb).
Qed.

Lemma X13_checks_follow_the_arguments_witness :
  filter is_check_event (run (calm_world sample_listing) "linux" linux_twice).1
  = argument_checks (OSS "linux") ["linux"; "linux"].
Proof.
  apply (X13_checks_follow_the_arguments (calm_world sample_listing) "linux"
           "check.py" "linux" ["linux"]). by vm_compute.
Defined.
